(** * remindme: payment classification and report assembly

    A shallow embedding of the final revision of [main.go] of
    kkentzo/remindme (package [main]) together with the part of Go's
    [time] package that the program calls, and the properties of the
    ingestion, classification and report code stated over it.

    Conventions.
    - Go's [int], [int64] and [time.Duration] are [Z]; the one place where
      the 64-bit range matters ([Time.Sub], which saturates) is written out.
    - [float64] values are exact rationals [Q].  The only float expression
      of the program is [d.Hours() / 24] followed by the conversion
      [int(_)], which truncates toward zero.  The durations the program
      meets are differences of two midnights, which are whole hours and
      make [Hours()] exact, and the saturated difference to the zero
      time; for these the rounding error of the float divisions
      (relative 2^-53) is far below the distance of the quotient to the
      next integer, and truncation of the exact quotient is what the
      program computes.  (A duration within a microsecond of a whole
      number of days, which no payment built by [NewPayment] and
      [WithDueDate] yields, could round to the next day in [float64].)
    - [time.Now()] is a read of a clock: the [n]-th read of a run returns
      [clk n], and every function that reads the clock threads the number
      of reads made so far.
    - a call that leaves the program (the Sheets service, the HTTP client)
      is answered from outside: [Service.run] is given the answers and
      returns, with its outcome, the calls and the printing it made, in
      their order.
    - a Go [error] is a value of the inductive type [error]; a run-time
      panic (failed type assertion, index out of range) is the outcome
      [Panic]. *)

From Stdlib Require Import ZArith List String Ascii Bool Lia.
From Stdlib Require Import QArith Qround.
From Stdlib Require Import DecimalString.
Import ListNotations.

Local Open Scope Z_scope.

(** ** Package [time] *)

Module time.

(** Durations are nanosecond counts held in an [int64]. *)
Definition Duration := Z.

Definition Nanosecond : Duration := 1.
Definition Second : Duration := 1000000000.
Definition Minute : Duration := 60 * Second.
Definition Hour : Duration := 60 * Minute.

Definition minDuration : Duration := - 2 ^ 63.
Definition maxDuration : Duration := 2 ^ 63 - 1.

Definition secondsPerDay : Z := 86400.

(** [Duration.Hours]: the whole hours plus the remainder as a fraction;
    Go's integer [/] and [%] truncate toward zero ([Z.quot], [Z.rem]). *)
Definition Hours (d : Duration) : Q :=
  (inject_Z (Z.quot d Hour) + inject_Z (Z.rem d Hour) / inject_Z (60 * 60 * 1000000000))%Q.

(** *** The proleptic Gregorian calendar

    Days are counted from 0001-01-01 (day 0), the day of Go's zero
    [Time].  The conversion works in 400-year eras that start on March 1
    of year 0, 306 days before day 0. *)

Definition isLeap (year : Z) : bool :=
  (year mod 4 =? 0) && (negb (year mod 100 =? 0) || (year mod 400 =? 0)).

Definition daysIn (month year : Z) : Z :=
  if month =? 2 then (if isLeap year then 29 else 28)
  else if (month =? 4) || (month =? 6) || (month =? 9) || (month =? 11) then 30
  else 31.

Definition daysPerEra : Z := 146097.

(** Day number of the civil date [year]-[month]-[day], [1 <= month <= 12];
    linear in [day], so that a day outside the month rolls over. *)
Definition daysSinceEpoch (year month day : Z) : Z :=
  let y := if month <=? 2 then year - 1 else year in
  let era := y / 400 in
  let yoe := y - era * 400 in
  let mp := if 2 <? month then month - 3 else month + 9 in
  let doy := (153 * mp + 2) / 5 + day - 1 in
  let doe := yoe * 365 + yoe / 4 - yoe / 100 + doy in
  era * daysPerEra + doe - 306.

(** Civil date of a day number. *)
Definition civil_of_doe (era doe : Z) : Z * Z * Z :=
  let yoe := (doe - doe / 1460 + doe / 36524 - doe / 146096) / 365 in
  let doy := doe - (365 * yoe + yoe / 4 - yoe / 100) in
  let mp := (5 * doy + 2) / 153 in
  let d := doy - (153 * mp + 2) / 5 + 1 in
  let m := if mp <? 10 then mp + 3 else mp - 9 in
  let y := yoe + era * 400 in
  ((if m <=? 2 then y + 1 else y), m, d).

Definition absDate (days : Z) : Z * Z * Z :=
  let z := days + 306 in
  let era := z / daysPerEra in
  civil_of_doe era (z - era * daysPerEra).

(** Day of the week of a day number, Sunday = 0; day 0 was a Monday. *)
Definition absWeekday (days : Z) : Z := (days + 1) mod 7.

(** *** Locations

    A [*Location] is one of the zones the program meets: [UTC] (which
    [Time] stores as the nil pointer), a fixed offset (what parsing an
    RFC 3339 stamp yields) and Europe/Athens. *)
Inductive Location : Type :=
| UTC
| FixedZone (offset : Z)
| EuropeAthens.

Definition Location_eqb (a b : Location) : bool :=
  match a, b with
  | UTC, UTC => true
  | FixedZone x, FixedZone y => x =? y
  | EuropeAthens, EuropeAthens => true
  | _, _ => false
  end.

(** Europe/Athens as the tz database, which [time.LoadLocation] reads,
    has it since 1996 (and as the zone's TZ string
    [EET-2EEST,M3.5.0/3,M10.5.0/4] extends it without end): EET, UTC+2,
    with EEST, UTC+3, from the last Sunday of March 01:00 UTC to the last
    Sunday of October 01:00 UTC.  The zone's earlier history is not
    represented.  Instants are seconds since 0001-01-01T00:00:00Z. *)
Definition lastSunday (year month : Z) : Z :=
  let last := daysSinceEpoch year month (daysIn month year) in
  last - absWeekday last.

Definition dstStart (year : Z) : Z := lastSunday year 3 * secondsPerDay + 3600.
Definition dstEnd (year : Z) : Z := lastSunday year 10 * secondsPerDay + 3600.

Definition alpha : Z := - 2 ^ 63.
Definition omega : Z := 2 ^ 63 - 1.

(** [Location.lookup]: the offset in force at an instant and the bounds
    [start <= instant < end] of the period it is in force. *)
Definition lookup (l : Location) (s : Z) : Z * Z * Z :=
  match l with
  | UTC => (0, alpha, omega)
  | FixedZone off => (off, alpha, omega)
  | EuropeAthens =>
      let '(y, _, _) := absDate (s / secondsPerDay) in
      if s <? dstStart y then (7200, dstEnd (y - 1), dstStart y)
      else if s <? dstEnd y then (10800, dstStart y, dstEnd y)
      else (7200, dstEnd y, dstStart (y + 1))
  end.

(** *** Instants

    A [Time] without monotonic clock reading: seconds since
    0001-01-01T00:00:00Z, nanoseconds within the second, and the
    location.  Equality of records is Go's [==] on such values; the zero
    value [Time{}] is January 1, year 1, 00:00:00 UTC. *)
Record Time : Type := mkTime { sec : Z; nsec : Z; loc : Location }.

Definition zero : Time := mkTime 0 0 UTC.

(** The instant 1970-01-01T00:00:00Z. *)
Definition unixToInternal : Z := (1969 * 365 + 1969 / 4 - 1969 / 100 + 1969 / 400) * secondsPerDay.

Definition Time_eqb (t u : Time) : bool :=
  (sec t =? sec u) && (nsec t =? nsec u) && Location_eqb (loc t) (loc u).

Definition In (t : Time) (l : Location) : Time := mkTime (sec t) (nsec t) l.

(** Seconds since day 0 on the clock of the time's location. *)
Definition abs (t : Time) : Z :=
  let '(offset, _, _) := lookup (loc t) (sec t) in sec t + offset.

Definition date (t : Time) : Z * Z * Z := absDate (abs t / secondsPerDay).

Definition Year (t : Time) : Z := let '(y, _, _) := date t in y.
Definition Month (t : Time) : Z := let '(_, m, _) := date t in m.
Definition Day (t : Time) : Z := let '(_, _, d) := date t in d.

(** [time.Date]: out-of-range fields are normalised into the next
    larger one, the wall-clock reading is taken as if it were UTC, and the
    zone offset found for it is subtracted, looked up a second time when
    the first guess falls outside the period it was found for. *)
Definition Date (year month day hour min sec nsec : Z) (l : Location) : Time :=
  let m := month - 1 in
  let year := year + m / 12 in
  let m := m mod 12 + 1 in
  let sec' := sec + nsec / 1000000000 in
  let nsec := nsec mod 1000000000 in
  let min' := min + sec' / 60 in
  let sec := sec' mod 60 in
  let hour' := hour + min' / 60 in
  let min := min' mod 60 in
  let day := day + hour' / 24 in
  let hour := hour' mod 24 in
  let d := daysSinceEpoch year m day in
  let unix := d * secondsPerDay + hour * 3600 + min * 60 + sec in
  let '(offset, start, end_) := lookup l unix in
  let unix :=
    if offset =? 0 then unix
    else
      let utc := unix - offset in
      let offset :=
        if (utc <? start) || (end_ <=? utc)
        then (let '(o, _, _) := lookup l utc in o)
        else offset in
      unix - offset in
  mkTime unix nsec l.

(** [Time.Sub]: the difference in nanoseconds, or the extreme duration
    on its side when the difference does not fit an [int64]. *)
Definition Sub (t u : Time) : Duration :=
  let d := (sec t - sec u) * Second + (nsec t - nsec u) in
  if (minDuration <=? d) && (d <=? maxDuration) then d
  else if (sec t <? sec u) || ((sec t =? sec u) && (nsec t <? nsec u)) then minDuration
  else maxDuration.

(** *** Parsing with the layout [DateOnly]

    [time.Parse] specialised to the layout ["2006-01-02"]: a year of
    exactly four digits, a month and a day of exactly two digits, each
    preceded by a literal hyphen, and nothing after them; the month must lie
    in 1..12 and the day in the month.  The result is midnight UTC. *)
Definition DateOnly : string := "2006-01-02".

Record ParseError : Type := mkParseError { Layout : string; Value : string }.

Definition digit (c : ascii) : option Z :=
  let n := Z.of_nat (nat_of_ascii c) in
  if (48 <=? n) && (n <=? 57) then Some (n - 48) else None.

(** [getnum s true]: two digits and the rest of the text. *)
Definition getnum2 (s : string) : option (Z * string) :=
  match s with
  | String a (String b rest) =>
      match digit a, digit b with
      | Some x, Some y => Some (x * 10 + y, rest)
      | _, _ => None
      end
  | _ => None
  end.

Definition skipHyphen (s : string) : option string :=
  match s with
  | String c rest => if Ascii.eqb c "-"%char then Some rest else None
  | EmptyString => None
  end.

Definition ParseDateOnly (value : string) : Time + ParseError :=
  let bad := inr (mkParseError DateOnly value) in
  match getnum2 value with
  | None => bad
  | Some (hi, value1) =>
      match getnum2 value1 with
      | None => bad
      | Some (lo, value2) =>
          let year := hi * 100 + lo in
          match skipHyphen value2 with
          | None => bad
          | Some value3 =>
              match getnum2 value3 with
              | None => bad
              | Some (month, value4) =>
                  if (month <=? 0) || (12 <? month) then bad
                  else
                    match skipHyphen value4 with
                    | None => bad
                    | Some value5 =>
                        match getnum2 value5 with
                        | None => bad
                        | Some (day, EmptyString) =>
                            if (day <? 1) || (daysIn month year <? day) then bad
                            else inl (Date year month day 0 0 0 0 UTC)
                        | Some (_, String _ _) => bad
                        end
                    end
              end
          end
      end
  end.

End time.

(** ** Package [main] *)

Local Open Scope string_scope.
Local Open Scope list_scope.
Local Open Scope Z_scope.

(** [GreekTimeZone]: the location loaded once from the name
    ["Europe/Athens"] (a failure to load it ends the process and is not
    modelled). *)
Definition GreekTimeZone : time.Location := time.EuropeAthens.

Definition ToDate (t : time.Time) : time.Time :=
  time.Date (time.Year t) (time.Month t) (time.Day t) 0 0 0 0 GreekTimeZone.

Record Payment : Type := mkPayment { description : string; due : time.Time }.

Definition NewPayment (description : string) : Payment :=
  mkPayment description time.zero.

Definition WithDueDate (p : Payment) (due : time.Time) : Payment :=
  mkPayment (description p) (ToDate (time.In due GreekTimeZone)).

Definition IsDue (p : Payment) : bool :=
  negb (time.Time_eqb (due p) time.zero).

(** The conversion [int(f)] of a float: truncation toward zero. *)
Definition int_of_float (f : Q) : Z :=
  if Qle_bool 0 f then Qfloor f else Qceiling f.

Definition DiffFromNowInDays (p : Payment) (now : time.Time) : Z :=
  let now := ToDate (time.In now GreekTimeZone) in
  let d := (time.Hours (time.Sub (due p) now) / inject_Z 24)%Q in
  int_of_float d.

(** *** The clock

    [time.Now()] returns [clk n] at the [n]-th read.  A computation that
    reads the clock maps the number of reads made so far to its result
    and the number made after it. *)
Definition Clock : Type := nat -> time.Time.

Definition Clocked (A : Type) : Type := Clock -> nat -> A * nat.

Definition ret {A : Type} (a : A) : Clocked A := fun _ n => (a, n).

Definition bind {A B : Type} (c : Clocked A) (k : A -> Clocked B) : Clocked B :=
  fun clk n => let '(a, n') := c clk n in k a clk n'.

Definition Now : Clocked time.Time := fun clk n => (clk n, S n).

Notation "x <- c ;; k" := (bind c (fun x => k))
  (at level 61, c at next level, right associativity).

(** A [for _, p := range ps] loop whose body reads the clock, with the
    loop variables in [acc]. *)
Fixpoint forRange {A S : Type} (body : S -> A -> Clocked S) (ps : list A) (acc : S)
  : Clocked S :=
  match ps with
  | [] => ret acc
  | p :: ps' => acc' <- body acc p ;; forRange body ps' acc'
  end.

(** *** Formatting *)

(** The verb [%d]. *)
Definition itoa (z : Z) : string := NilZero.string_of_int (Z.to_int z).

Definition newline : string := String (ascii_of_nat 10) EmptyString.

(** [strings.Join]. *)
Definition Join (elems : list string) (sep : string) : string := String.concat sep elems.

(** *** Classification *)

Definition FindPaymentsAt (payments : list Payment) (diff : Z) (now : time.Time)
  : list Payment :=
  fold_left
    (fun found p =>
       if negb (IsDue p) then found (* skip non-due payments *)
       else if DiffFromNowInDays p now =? diff then found ++ [p]
       else found)
    payments [].

Definition FindPaymentsUntil (payments : list Payment) (maxDiff : Z) (now : time.Time)
  : list Payment :=
  fold_left
    (fun delayed p =>
       if negb (IsDue p) then delayed (* skip non-due payments *)
       else if DiffFromNowInDays p now <=? maxDiff then delayed ++ [p]
       else delayed)
    payments [].

Definition descriptions (ps : list Payment) : list string :=
  fold_left (fun ds p => ds ++ [description p]) ps [].

Definition SummarizeDelayedPayments (payments : list Payment) : Clocked string :=
  now <- Now ;;
  let delayed := FindPaymentsUntil payments (-1) now in
  if (0 <? Z.of_nat (List.length delayed))
  then ret ("⚠ Delayed: " ++ Join (descriptions delayed) ", ")%string
  else ret "".

Definition SummarizePaymentsForToday (payments : list Payment) : Clocked string :=
  now <- Now ;;
  let scheduled := FindPaymentsAt payments 0 now in
  if (0 <? Z.of_nat (List.length scheduled))
  then ret ("💸 Today: " ++ Join (descriptions scheduled) ", ")%string
  else ret "😎 Nothing for today".

(** The first loop of [SummarizePaymentsComingUp], which fills the slice
    [comingUp]; the clock is read once for every date-scheduled payment. *)
Definition comingUp (payments : list Payment) (timeWindowInDays : Z)
  : Clocked (list Payment) :=
  forRange
    (fun found p =>
       if negb (IsDue p) then ret found (* skip non-due payments *)
       else
         now <- Now ;;
         let d := DiffFromNowInDays p now in
         if (1 <=? d) && (d <=? timeWindowInDays) then ret (found ++ [p])
         else ret found)
    payments [].

Definition SummarizePaymentsComingUp (payments : list Payment) (timeWindowInDays : Z)
  : Clocked string :=
  found <- comingUp payments timeWindowInDays ;;
  if (0 <? Z.of_nat (List.length found))
  then ret ("⏳ Coming Up (next " ++ itoa timeWindowInDays ++ " days): "
            ++ Join (descriptions found) ", ")%string
  else ret ("😎 Nothing coming up (next " ++ itoa timeWindowInDays ++ " days)")%string.

(** The loop of [SummarizeTotalPayments], which counts into [n]; the
    clock is read once for every payment. *)
Definition totalPending (payments : list Payment) (timeWindowInDays : Z) : Clocked Z :=
  forRange
    (fun n p =>
       now <- Now ;;
       if DiffFromNowInDays p now <=? timeWindowInDays then ret (n + 1)
       else ret n)
    payments 0.

Definition SummarizeTotalPayments (payments : list Payment) (timeWindowInDays : Z)
  : Clocked string :=
  n <- totalPending payments timeWindowInDays ;;
  ret ("💰 Total " ++ itoa n ++ " payments pending during the next "
       ++ itoa timeWindowInDays ++ " days")%string.

(** *** Ingestion *)

(** A cell of a fetched sheet is an [interface{}]; the program asserts
    every cell it reads to be a [string]. *)
Inductive Value : Type :=
| VString (s : string)
| VNumber (q : Q)
| VBool (b : bool).

Definition Row : Type := list Value.

(** The errors the program builds, with the arguments of their format
    strings. *)
Inductive error : Type :=
| ErrNoData                               (* "no data found" *)
| ErrDescriptionHeader                    (* "description label was not found in sheet header" *)
| ErrPaymentDateHeader                    (* "payment date was not found in sheet header" *)
| ErrReadDescription (column row : Z)     (* "can not read description (column=%d) in row %d" *)
| ErrReadDueDate (column row : Z)         (* "can not read due date (column=%d) in row %d" *)
| ErrReadPaymentDate (column row : Z)     (* "can not read payment date (column=%d) in row %d" *)
| ErrParseDueDate (dueDate : string) (err : time.ParseError)
                                          (* "failed to parse due date value %s: %v" *)
| ErrReadSheet (name : string) (err : error)
                                          (* "failed to read sheet %s: %v" *)
| ErrReadPayments (name : string) (err : error).
                                          (* "failed to read payments from sheet '%s': %v" *)

(** The outcome of a call that returns [(value, error)] and may panic. *)
Inductive result (A : Type) : Type :=
| Ok (a : A)
| Err (e : error)
| Panic.

Arguments Ok {A} a.
Arguments Err {A} e.
Arguments Panic {A}.

(** The type assertion [v.(string)]. *)
Definition assertString (v : Value) : result string :=
  match v with
  | VString s => Ok s
  | _ => Panic
  end.

(** The indexing [row[i]] of a slice. *)
Definition index (row : Row) (i : Z) : result Value :=
  if i <? 0 then Panic
  else match nth_error row (Z.to_nat i) with
       | Some v => Ok v
       | None => Panic
       end.

Definition len {A : Type} (l : list A) : Z := Z.of_nat (List.length l).

(** The part of [getSheet] that follows the fetch of [res.Values]. *)
Definition getSheet (rows : list Row) : result (list Row) :=
  if len rows <=? 1 then Err ErrNoData else Ok rows.

(** The header loop of [readPayments] over [rows[0]]: the three column
    indices, each the position of the last cell that carries its label. *)
Fixpoint scanHeader (header : Row) (idx : Z) (indices : Z * Z * Z) : result (Z * Z * Z) :=
  match header with
  | [] => Ok indices
  | v :: header' =>
      match assertString v with
      | Ok val =>
          let '(descriptionIndex, dueDateIndex, paymentDateIndex) := indices in
          let descriptionIndex := if val =? "Description" then idx else descriptionIndex in
          let dueDateIndex := if val =? "Due Date" then idx else dueDateIndex in
          let paymentDateIndex := if val =? "Payment Date" then idx else paymentDateIndex in
          scanHeader header' (idx + 1) (descriptionIndex, dueDateIndex, paymentDateIndex)
      | Err e => Err e
      | Panic => Panic
      end
  end%string.

(** What one turn of the row loop does with the loop's variables. *)
Inductive step : Type :=
| Continue (payments : list Payment) (dueDate : string)
| Return (e : error)
| Panics.

Definition readRow (descriptionIndex dueDateIndex paymentDateIndex : Z)
    (idx : Z) (row : Row) (payments : list Payment) (dueDate : string) : step :=
  if len row - 1 <? descriptionIndex then Return (ErrReadDescription descriptionIndex idx)
  else if len row - 1 <? dueDateIndex then Return (ErrReadDueDate dueDateIndex idx)
  else if len row - 1 <? paymentDateIndex then Return (ErrReadPaymentDate paymentDateIndex idx)
  else
    match index row descriptionIndex with
    | Ok v =>
        match assertString v with
        | Ok description =>
            let dueDate' :=
              if 0 <=? dueDateIndex then
                match index row dueDateIndex with
                | Ok v => assertString v
                | Err e => Err e
                | Panic => Panic
                end
              else Ok dueDate in
            match dueDate' with
            | Ok dueDate =>
                match index row paymentDateIndex with
                | Ok v =>
                    match assertString v with
                    | Ok paymentDate =>
                        if negb (paymentDate =? "")%string then
                          (* already paid -- skip *)
                          Continue payments dueDate
                        else if dueDateIndex =? -1 then
                          (* not a scheduled payment -- add to payments and continue *)
                          Continue (payments ++ [NewPayment description]) dueDate
                        else
                          (* scheduled payment -- parse due date *)
                          match time.ParseDateOnly dueDate with
                          | inr err => Return (ErrParseDueDate dueDate err)
                          | inl due =>
                              Continue
                                (payments ++ [WithDueDate (NewPayment description) due])
                                dueDate
                          end
                    | _ => Panics
                    end
                | _ => Panics
                end
            | _ => Panics
            end
        | _ => Panics
        end
    | _ => Panics
    end.

(** The row loop of [readPayments] over [rows[1:]]. *)
Fixpoint readRows (descriptionIndex dueDateIndex paymentDateIndex : Z)
    (rows : list Row) (idx : Z) (payments : list Payment) (dueDate : string)
  : result (list Payment) :=
  match rows with
  | [] => Ok payments
  | row :: rows' =>
      match readRow descriptionIndex dueDateIndex paymentDateIndex idx row payments dueDate with
      | Continue payments' dueDate' =>
          readRows descriptionIndex dueDateIndex paymentDateIndex rows' (idx + 1)
            payments' dueDate'
      | Return e => Err e
      | Panics => Panic
      end
  end.

Definition readPayments (rows : list Row) : result (list Payment) :=
  match rows with
  | [] => Panic (* rows[0]: index out of range *)
  | header :: data =>
      match scanHeader header 0 (-1, -1, -1) with
      | Ok (descriptionIndex, dueDateIndex, paymentDateIndex) =>
          if descriptionIndex =? -1 then Err ErrDescriptionHeader
          else if paymentDateIndex =? -1 then Err ErrPaymentDateHeader
          else readRows descriptionIndex dueDateIndex paymentDateIndex data 0 [] ""
      | Err e => Err e
      | Panic => Panic
      end
  end.

(** *** The run *)

Definition nothingToReport : string := "🕶  Nothing to report".

(** The report of [run] from the ingested payments: the summaries are
    evaluated in their order, the non-empty ones become sections. *)
Definition sectionsOf (summaries : list string) : list string :=
  fold_left (fun sections summary =>
               if negb (summary =? "")%string then sections ++ [summary] else sections)
            summaries [].

Definition assemble (summaries : list string) : string :=
  let sections := sectionsOf summaries in
  let sections := if len sections =? 0 then sections ++ [nothingToReport] else sections in
  Join sections newline.

Definition report (payments : list Payment) : Clocked string :=
  delayed <- SummarizeDelayedPayments payments ;;
  today <- SummarizePaymentsForToday payments ;;
  coming <- SummarizePaymentsComingUp payments 2 ;;
  total <- SummarizeTotalPayments payments 30 ;;
  ret (assemble [delayed; today; coming; total]).

(** A configured sheet with the values the Sheets service returned for
    it. *)
Record Sheet : Type := mkSheet { Name : string; Values : list Row }.

(** The sheet loop of [run]. *)
Fixpoint readSheets (sheets : list Sheet) (payments : list Payment)
  : result (list Payment) :=
  match sheets with
  | [] => Ok payments
  | sheet :: sheets' =>
      match getSheet (Values sheet) with
      | Ok rows =>
          match readPayments rows with
          | Ok p => readSheets sheets' (payments ++ p)
          | Err e => Err (ErrReadPayments (Name sheet) e)
          | Panic => Panic
          end
      | Err e => Err (ErrReadSheet (Name sheet) e)
      | Panic => Panic
      end
  end.

(** [run] up to the report it hands to [SendNotification]. *)
Definition run (sheets : list Sheet) (clk : Clock) : result string :=
  match readSheets sheets [] with
  | Ok payments => Ok (fst (report payments clk 0%nat))
  | Err e => Err e
  | Panic => Panic
  end.

(** ** The run with its calls to the outside

    [run] above begins where the values of the sheets have been fetched
    and ends with the report.  Here the calls that leave the program are
    part of the run: the making of the Sheets client, the fetch of the
    values of each sheet, the printing, and the request to the notification
    server.  What the outside answers is given; what the program does with
    an answer is the source's. *)
Module Service.

(** The answer of a call to a library that returns [(value, error)]; the
    error is the library's, known by its message. *)
Inductive reply (A : Type) : Type :=
| Answer (a : A)
| Failure (err : string).

Arguments Answer {A} a.
Arguments Failure {A} err.

(** A sheet of the configuration, with the answer of
    [svc.Spreadsheets.Values.Get(spreadsheetId, sheetName).Do()] when the
    run asks for its values: [res.Values] or the error. *)
Record Sheet : Type :=
  mkSheet { SpreadsheetId : string; Name : string; Values : reply (list Row) }.

Record Config : Type := mkConfig { NotificationTopic : string; Sheets : list Sheet }.

(** An HTTP request: method, URL, headers in the order they were set, and
    body. *)
Record Request : Type :=
  mkRequest { Method : string; URL : string; Header : list (string * string); Body : string }.

(** [req.Header.Set(key, value)]. *)
Definition HeaderSet (key value : string) (req : Request) : Request :=
  mkRequest (Method req) (URL req)
            (filter (fun kv => negb (fst kv =? key)%string) (Header req) ++ [(key, value)])
            (Body req).

(** The libraries the run calls: [sheets.NewService], [http.NewRequest]
    on a method and a URL, and [http.DefaultClient.Do], which answers with
    the status code of the response. *)
Record World : Type :=
  mkWorld { NewService : reply unit;
            NewRequest : string -> string -> reply unit;
            Do : Request -> reply Z }.

(** What the run does to the outside, in the order it does it. *)
Inductive event : Type :=
| Fetch (spreadsheetId sheetName : string)
| Print (text : string)
| Send (req : Request).

Inductive sheetError : Type :=
| GetError (err : string)                 (* the error of the fetch, returned as it is *)
| NoDataFound.                            (* "no data found" *)

Inductive sendError : Type :=
| CreateRequestError (err : string)       (* "failed to create http request: %v" *)
| SendRequestError (err : string)         (* "error sending http request: %v" *)
| StatusError (status : Z).               (* "server responded with status=%d" *)

Inductive runError : Type :=
| SheetsClientError (err : string)        (* "Unable to retrieve Sheets Client: %v" *)
| ReadSheetError (name : string) (err : sheetError)
                                          (* "failed to read sheet %s: %v" *)
| ReadPaymentsError (name : string) (err : error)
                                          (* "failed to read payments from sheet '%s': %v" *)
| NotificationError (err : sendError).    (* "failed to send notification: %v" *)

(** How a call of [run] ends: it returns [nil] or an error, or it
    panics. *)
Inductive outcome : Type :=
| Returned (err : option runError)
| Panicked.

Definition getSheet (res : reply (list Row)) : list Row + sheetError :=
  match res with
  | Failure err => inr (GetError err)
  | Answer rows => if len rows <=? 1 then inr NoDataFound else inl rows
  end.

Definition StatusOK : Z := 200.

Definition SendNotification (w : World) (topic title message tag : string)
  : list event * option sendError :=
  let host := ("https://ntfy.sh/" ++ topic)%string in
  match NewRequest w "POST" host with
  | Failure err => ([], Some (CreateRequestError err))
  | Answer _ =>
      let req := mkRequest "POST" host [] message in
      let req := HeaderSet "Title" title req in
      let req := HeaderSet "Tags" tag req in
      match Do w req with
      | Failure err => ([Send req], Some (SendRequestError err))
      | Answer status =>
          if negb (status =? StatusOK) then ([Send req], Some (StatusError status))
          else ([Send req], None)
      end
  end.

(** The sheet loop of [run]. *)
Fixpoint readSheets (sheets : list Sheet) (payments : list Payment)
  : list event * (list Payment + outcome) :=
  match sheets with
  | [] => ([], inl payments)
  | sheet :: sheets' =>
      let fetch := Fetch (SpreadsheetId sheet) (Name sheet) in
      match getSheet (Values sheet) with
      | inr err => ([fetch], inr (Returned (Some (ReadSheetError (Name sheet) err))))
      | inl rows =>
          match readPayments rows with
          | Ok p =>
              let (events, r) := readSheets sheets' (payments ++ p) in
              (fetch :: events, r)
          | Err e => ([fetch], inr (Returned (Some (ReadPaymentsError (Name sheet) e))))
          | Panic => ([fetch], inr Panicked)
          end
      end
  end.

Definition run (w : World) (config : Config) (print : bool) (clk : Clock)
  : list event * outcome :=
  match NewService w with
  | Failure err => ([], Returned (Some (SheetsClientError err)))
  | Answer _ =>
      match readSheets (Sheets config) [] with
      | (fetches, inr o) => (fetches, o)
      | (fetches, inl payments) =>
          let report := fst (report payments clk 0%nat) in
          let printed := if print then [Print report] else [] in
          match SendNotification w (NotificationTopic config) "Payment Report" report "" with
          | (sent, Some err) =>
              (fetches ++ printed ++ sent, Returned (Some (NotificationError err)))
          | (sent, None) => (fetches ++ printed ++ sent, Returned None)
          end
      end
  end.

(** *** Vocabulary of the properties of the whole run *)

(** The fetch of a sheet is answered with a header and at least one row
    more, which [readPayments] reads into payments. *)
Definition reads (sheet : Sheet) (ps : list Payment) : Prop :=
  exists rows, Values sheet = Answer rows /\ 1 < len rows /\ readPayments rows = Ok ps.

Definition fetchOf (sheet : Sheet) : event := Fetch (SpreadsheetId sheet) (Name sheet).

(** The request that carries a report to a topic. *)
Definition notification (topic message : string) : Request :=
  mkRequest "POST" ("https://ntfy.sh/" ++ topic)
            [("Title", "Payment Report"); ("Tags", EmptyString)] message.

End Service.

(** ** Vocabulary of the properties *)

(** The smallest value [DiffFromNowInDays] takes: the day count of
    [time.minDuration]. *)
Definition minDiff : Z := -106751.

(** [subsequence l1 l2]: [l1] is [l2] with some elements left out, the
    others in their order. *)
Inductive subsequence {A : Type} : list A -> list A -> Prop :=
| sub_nil : subsequence [] []
| sub_skip (x : A) (l1 l2 : list A) : subsequence l1 l2 -> subsequence l1 (x :: l2)
| sub_keep (x : A) (l1 l2 : list A) : subsequence l1 l2 -> subsequence (x :: l1) (x :: l2).

(** The tests that the two search loops apply to a payment. *)
Definition due_at (diff : Z) (now : time.Time) (p : Payment) : bool :=
  IsDue p && (DiffFromNowInDays p now =? diff).

Definition due_until (maxDiff : Z) (now : time.Time) (p : Payment) : bool :=
  IsDue p && (DiffFromNowInDays p now <=? maxDiff).

(** The classifier in the words of the specification: [findAt] and
    [findUntil] as the payments "whose diffFromNowInDays" equals the target
    or is at most the bound, [countPendingWithin] as the count of the
    date-scheduled payments whose delta is at most the window. *)
Definition spec_findAt (payments : list Payment) (targetDiff : Z) (now : time.Time)
  : list Payment :=
  filter (fun p => DiffFromNowInDays p now =? targetDiff) payments.

Definition spec_findUntil (payments : list Payment) (maxDiff : Z) (now : time.Time)
  : list Payment :=
  filter (fun p => DiffFromNowInDays p now <=? maxDiff) payments.

Definition spec_countPendingWithin (payments : list Payment) (windowDays : Z)
    (now : time.Time) : Z :=
  len (filter (fun p => IsDue p && (DiffFromNowInDays p now <=? windowDays)) payments).

(** The payments of a loop paired with the number of the clock read of
    their turn, when the loop starts after [n] reads and reads once per
    turn; and the test of the counting loop on such a pair. *)
Definition turns {A : Type} (n : nat) (ps : list A) : list (nat * A) :=
  combine (seq n (List.length ps)) ps.

Definition pending_at (clk : Clock) (windowDays : Z) (turn : nat * Payment) : bool :=
  DiffFromNowInDays (snd turn) (clk (fst turn)) <=? windowDays.

(** Two outcomes of an ingestion agree when they are the same list of
    payments, or both an error, or both a panic; likewise two turns of the
    row loop. *)
Definition agree (r1 r2 : result (list Payment)) : Prop :=
  match r1, r2 with
  | Ok ps1, Ok ps2 => ps1 = ps2
  | Err _, Err _ => True
  | Panic, Panic => True
  | _, _ => False
  end.

Definition step_agree (s1 s2 : step) : Prop :=
  match s1, s2 with
  | Continue ps1 _, Continue ps2 _ => ps1 = ps2
  | Return _, Return _ => True
  | Panics, Panics => True
  | _, _ => False
  end.

(** Sample instants, clocks, payments and cells: an hour of a day at a
    fixed offset from UTC, midnight UTC of a day (what parsing a date
    yields), the clock that stands still. *)
Definition at_ (year month day hour : Z) (offset : Z) : time.Time :=
  time.Date year month day hour 0 0 0 (time.FixedZone offset).

Definition day_ (year month day : Z) : time.Time :=
  time.Date year month day 0 0 0 0 time.UTC.

Definition always (now : time.Time) : Clock := fun _ => now.

Definition rent : Payment := NewPayment "rent".

Definition S_ (s : string) : Value := VString s.

Definition scheduledHeader : Row := [S_ "Description"; S_ "Due Date"; S_ "Payment Date"].

(** The report in the words of the specification: one line per bucket in
    the order delayed, due today, coming up, total; the delayed line only
    when its bucket has payments, the lines of today and of the coming days
    replaced by their placeholders when theirs have none; the lines joined
    by a newline, and the fixed line when there is none. *)
Definition spec_delayedLine (bucket : list Payment) : list string :=
  match bucket with
  | [] => []
  | _ => [("⚠ Delayed: " ++ Join (map description bucket) ", ")%string]
  end.

Definition spec_todayLine (bucket : list Payment) : string :=
  match bucket with
  | [] => "😎 Nothing for today"
  | _ => ("💸 Today: " ++ Join (map description bucket) ", ")%string
  end.

Definition spec_comingUpLine (windowDays : Z) (bucket : list Payment) : string :=
  match bucket with
  | [] => ("😎 Nothing coming up (next " ++ itoa windowDays ++ " days)")%string
  | _ => ("⏳ Coming Up (next " ++ itoa windowDays ++ " days): "
          ++ Join (map description bucket) ", ")%string
  end.

Definition spec_totalLine (windowDays count : Z) : string :=
  ("💰 Total " ++ itoa count ++ " payments pending during the next "
   ++ itoa windowDays ++ " days")%string.

Definition spec_report (sections : list string) : string :=
  match sections with
  | [] => nothingToReport
  | _ => Join sections newline
  end.

Definition nonEmpty (s : string) : bool := negb (s =? "")%string.

Fixpoint hasNewline (s : string) : bool :=
  match s with
  | EmptyString => false
  | String c s' => (nat_of_ascii c =? 10)%nat || hasNewline s'
  end.

(** *** Texts put together by explicit appends

    The separators written out, for stating what the report is without
    the program's own joining function. *)
Fixpoint commaSeparated (l : list string) : string :=
  match l with
  | [] => ""
  | s :: rest =>
      match rest with
      | [] => s
      | _ :: _ => (s ++ ", " ++ commaSeparated rest)%string
      end
  end.

Fixpoint lineSeparated (l : list string) : string :=
  match l with
  | [] => ""
  | s :: rest =>
      match rest with
      | [] => s
      | _ :: _ => (s ++ String "010"%char (lineSeparated rest))%string
      end
  end.

(** *** Vocabulary of the further properties of ingestion *)

(** The text of the cell of a row in a column, when the row reaches the
    column and the cell is a text. *)
Definition cellText (row : Row) (i : Z) : option string :=
  match index row i with
  | Ok (VString s) => Some s
  | _ => None
  end.

Definition isText (v : Value) : bool :=
  match v with
  | VString _ => true
  | _ => false
  end.

(** The position of the last cell of a header that carries a label,
    counted from [idx], or [default] when there is none. *)
Fixpoint lastIndex (label : string) (header : Row) (idx default : Z) : Z :=
  match header with
  | [] => default
  | v :: header' =>
      lastIndex label header' (idx + 1)
        (match v with
         | VString s => if (s =? label)%string then idx else default
         | _ => default
         end)
  end.

(** A row that the row loop gets past: its description and payment-date
    cells are texts, and on a sheet with a due-date column so is its
    due-date cell, which is a date unless the row is settled. *)
Definition readable (di du pi : Z) (row : Row) : bool :=
  match cellText row di, cellText row pi with
  | Some _, Some paymentDate =>
      if du =? -1 then true
      else
        match cellText row du with
        | Some dueDate =>
            negb (paymentDate =? "")%string
            || (match time.ParseDateOnly dueDate with inl _ => true | inr _ => false end)
        | None => false
        end
  | _, _ => false
  end.

(** The payment that a row contributes, if any. *)
Definition pendingOf (di du pi : Z) (row : Row) : list Payment :=
  match cellText row di, cellText row pi with
  | Some description, Some "" =>
      if (du =? -1)%Z then [NewPayment description]
      else
        match cellText row du with
        | Some dueDate =>
            match time.ParseDateOnly dueDate with
            | inl t => [WithDueDate (NewPayment description) t]
            | inr _ => []
            end
        | None => []
        end
  | _, _ => []
  end%string.

(** What [run] makes of one sheet. *)
Definition readSheet (sheet : Sheet) : result (list Payment) :=
  match getSheet (Values sheet) with
  | Ok rows =>
      match readPayments rows with
      | Ok p => Ok p
      | Err e => Err (ErrReadPayments (Name sheet) e)
      | Panic => Panic
      end
  | Err e => Err (ErrReadSheet (Name sheet) e)
  | Panic => Panic
  end.

(** *** Vocabulary of the further properties of classification *)

(** The number of the day of an instant on the calendar of Athens. *)
Definition localDay (t : time.Time) : Z :=
  time.abs (time.In t GreekTimeZone) / time.secondsPerDay.

(** The test of the coming-up loop on a payment. *)
Definition coming_up (window : Z) (now : time.Time) (p : Payment) : bool :=
  IsDue p && ((1 <=? DiffFromNowInDays p now) && (DiffFromNowInDays p now <=? window)).


(** The date that the ten characters of a text in the form YYYY-MM-DD
    spell. *)
Definition writtenDate (s : string) : option (Z * Z * Z) :=
  match s with
  | String y1 (String y2 (String y3 (String y4 (String _ (String m1 (String m2
      (String _ (String d1 (String d2 EmptyString))))))))) =>
      match time.digit y1, time.digit y2, time.digit y3, time.digit y4, time.digit m1, time.digit m2, time.digit d1, time.digit d2 with
      | Some a, Some b, Some c, Some e, Some f, Some g, Some h, Some i =>
          Some ((a * 10 + b) * 100 + (c * 10 + e), f * 10 + g, h * 10 + i)
      | _, _, _, _, _, _, _, _ => None
      end
  | _ => None
  end.

(** The rule by which [time.lookup] gives the offset of Athens, summer
    time from the last Sunday of March to the last Sunday of October, is
    the rule of the zone since 1996; under the rules of the years before,
    summer time began and ended on other days.  The properties that speak
    of the calendar of Athens are therefore stated of instants from
    1 January 1996, 00:00 UTC, on.  The midnight in Athens before such an
    instant is no earlier than 31 December 1995, 22:00 UTC, in the winter
    that the rule and the zone share. *)
Definition since1996 (t : time.Time) : Prop :=
  time.daysSinceEpoch 1996 1 1 * time.secondsPerDay <= time.sec t.


(** * Properties *)

(** ** The calendar *)

Module Calendar.
Import time.

(** Within an era the year and the day of the year, and within a year
    (beginning in March) the month and the day, stay in their ranges. *)
Lemma yearOfEra_bounds (doe : Z) :
  0 <= doe < daysPerEra ->
  let yoe := (doe - doe / 1460 + doe / 36524 - doe / 146096) / 365 in
  0 <= yoe <= 399 /\ 0 <= doe - (365 * yoe + yoe / 4 - yoe / 100) <= 365.
Proof.
  unfold daysPerEra. intros H. cbv zeta.
  Z.div_mod_to_equations. lia.
Qed.

Lemma monthOfYear_bounds (doy : Z) :
  0 <= doy <= 365 ->
  let mp := (5 * doy + 2) / 153 in
  0 <= mp <= 11 /\ 1 <= doy - (153 * mp + 2) / 5 + 1 <= 31.
Proof.
  intros H. cbv zeta. Z.div_mod_to_equations. lia.
Qed.

Lemma absDate_inv (days : Z) :
  let '(y, m, d) := absDate days in
  daysSinceEpoch y m d = days /\ 1 <= m <= 12 /\ 1 <= d <= 31.
Proof.
  unfold absDate. cbv zeta.
  set (z := days + 306). set (era := z / daysPerEra).
  assert (Hdoe : 0 <= z - era * daysPerEra < daysPerEra).
  { subst era. unfold daysPerEra. Z.div_mod_to_equations. lia. }
  set (doe := z - era * daysPerEra) in *.
  unfold civil_of_doe. cbv zeta.
  pose proof (yearOfEra_bounds doe Hdoe) as Hy. cbv zeta in Hy.
  set (yoe := (doe - doe / 1460 + doe / 36524 - doe / 146096) / 365) in *.
  destruct Hy as [Hyoe Hdoy].
  set (doy := doe - (365 * yoe + yoe / 4 - yoe / 100)) in *.
  pose proof (monthOfYear_bounds doy Hdoy) as Hm. cbv zeta in Hm.
  set (mp := (5 * doy + 2) / 153) in *.
  destruct Hm as [Hmp Hd].
  set (d := doy - (153 * mp + 2) / 5 + 1) in *.
  set (m := if mp <? 10 then mp + 3 else mp - 9).
  assert (Hmm : 1 <= m <= 12 /\ (if 2 <? m then m - 3 else m + 9) = mp
                /\ ((m <=? 2) = negb (mp <? 10))).
  { subst m. destruct (Z.ltb_spec mp 10).
    - destruct (Z.ltb_spec 2 (mp + 3)); destruct (Z.leb_spec (mp + 3) 2); simpl; lia.
    - destruct (Z.ltb_spec 2 (mp - 9)); destruct (Z.leb_spec (mp - 9) 2); simpl; lia. }
  destruct Hmm as (Hm & Hmp' & Hle).
  split; [|lia].
  unfold daysSinceEpoch. cbv zeta. rewrite Hmp'.
  replace (if m <=? 2 then (if m <=? 2 then yoe + era * 400 + 1 else yoe + era * 400) - 1
           else (if m <=? 2 then yoe + era * 400 + 1 else yoe + era * 400))
    with (yoe + era * 400) by (destruct (m <=? 2); lia).
  rewrite Z.div_add by lia. rewrite (Z.div_small yoe 400) by lia.
  replace (yoe + era * 400 - (0 + era) * 400) with yoe by lia.
  subst d doy doe z. unfold daysPerEra in *. lia.
Qed.

End Calendar.

(** ** Instants, durations and day differences *)

Module TimeFacts.
Import time.

Lemma lookup_Athens_offset (s : Z) :
  fst (fst (lookup EuropeAthens s)) = 7200 \/ fst (fst (lookup EuropeAthens s)) = 10800.
Proof.
  unfold lookup. destruct (absDate _) as [[y m] d].
  destruct (s <? dstStart y); [left; reflexivity|].
  destruct (s <? dstEnd y); [right|left]; reflexivity.
Qed.

(** Midnight in Athens of a civil date that [absDate] produced: the day
    number times the length of a day, less the offset in force. *)
Lemma Date_midnight_Athens (days : Z) :
  let '(y, m, d) := absDate days in
  exists offset,
    (offset = 7200 \/ offset = 10800) /\
    Date y m d 0 0 0 0 EuropeAthens = mkTime (days * secondsPerDay - offset) 0 EuropeAthens.
Proof.
  pose proof (Calendar.absDate_inv days) as H.
  destruct (absDate days) as [[y m] d]. destruct H as (Hd & Hm & _).
  unfold Date. cbv zeta.
  replace ((m - 1) / 12) with 0 by (symmetry; apply Z.div_small; lia).
  replace ((m - 1) mod 12 + 1) with m by (rewrite Z.mod_small; lia).
  change ((0 + (0 + (0 + 0 / 1000000000) / 60) / 60) / 24) with 0.
  change ((0 + (0 + (0 + 0 / 1000000000) / 60) / 60) mod 24) with 0.
  change ((0 + (0 + 0 / 1000000000) / 60) mod 60) with 0.
  change ((0 + 0 / 1000000000) mod 60) with 0.
  replace (y + 0) with y by lia. replace (d + 0) with d by lia. rewrite Hd.
  replace (days * secondsPerDay + 0 * 3600 + 0 * 60 + 0) with (days * secondsPerDay) by lia.
  set (unix := days * secondsPerDay).
  pose proof (lookup_Athens_offset unix) as Ho.
  destruct (lookup EuropeAthens unix) as [[offset start] end_]. simpl in Ho.
  replace (offset =? 0) with false by (symmetry; apply Z.eqb_neq; lia).
  destruct ((unix - offset <? start) || (end_ <=? unix - offset)).
  - pose proof (lookup_Athens_offset (unix - offset)) as Ho'.
    destruct (lookup EuropeAthens (unix - offset)) as [[o' ?] ?]. simpl in Ho'.
    exists o'. split; [exact Ho'|reflexivity].
  - exists offset. split; [exact Ho|reflexivity].
Qed.


Lemma ToDate_Athens (t : Time) :
  exists o1 o2,
    (o1 = 7200 \/ o1 = 10800) /\ (o2 = 7200 \/ o2 = 10800) /\
    ToDate (In t GreekTimeZone)
    = mkTime ((sec t + o1) / secondsPerDay * secondsPerDay - o2) 0 EuropeAthens.
Proof.
  unfold ToDate, Year, Month, Day, date, abs, In, GreekTimeZone. cbn [loc sec].
  pose proof (lookup_Athens_offset (sec t)) as Ho1.
  destruct (lookup EuropeAthens (sec t)) as [[o1 ?] ?]. simpl in Ho1.
  pose proof (Date_midnight_Athens ((sec t + o1) / secondsPerDay)) as Hd.
  destruct (absDate ((sec t + o1) / secondsPerDay)) as [[y m] d].
  destruct Hd as (o2 & Ho2 & Heq).
  exists o1, o2. repeat split; assumption.
Qed.

(** The day that [ToDate] selects begins at most a day and three hours
    before the instant. *)
Lemma ToDate_lower (t : Time) :
  sec t - 90000 < sec (ToDate (In t GreekTimeZone)).
Proof.
  destruct (ToDate_Athens t) as (o1 & o2 & Ho1 & Ho2 & ->). cbn [sec].
  unfold secondsPerDay. Z.div_mod_to_equations. lia.
Qed.

Lemma Sub_range (t u : Time) : minDuration <= Sub t u <= maxDuration.
Proof.
  unfold Sub. cbv zeta.
  destruct (andb _ _) eqn:E.
  - apply andb_true_iff in E as [H1 H2]. lia.
  - destruct (orb _ _); unfold minDuration, maxDuration; lia.
Qed.

(** The conversion of [Hours() / 24] to [int] is the quotient of the
    nanoseconds by the length of a day, truncated toward zero. *)
Lemma int_of_float_comp (x y : Q) : (x == y)%Q -> int_of_float x = int_of_float y.
Proof.
  intros H. unfold int_of_float.
  assert (Hb : Qle_bool 0 x = Qle_bool 0 y).
  { destruct (Qle_bool 0 x) eqn:Ex, (Qle_bool 0 y) eqn:Ey; try reflexivity.
    - apply Qle_bool_iff in Ex. rewrite H in Ex. apply Qle_bool_iff in Ex. congruence.
    - apply Qle_bool_iff in Ey. rewrite <- H in Ey. apply Qle_bool_iff in Ey. congruence. }
  rewrite Hb.
  destruct (Qle_bool 0 y); [apply Qfloor_comp | apply Qceiling_comp]; exact H.
Qed.

Lemma int_of_float_frac (a : Z) (b : positive) :
  int_of_float (a # b) = Z.quot a (Z.pos b).
Proof.
  unfold int_of_float, Qle_bool, Qceiling, Qfloor. cbn [Qnum Qden Qopp].
  rewrite Z.mul_1_r. change (0 * Z.pos b) with 0.
  destruct (Z.leb_spec 0 a) as [Ha|Ha].
  - symmetry. apply Z.quot_div_nonneg; lia.
  - rewrite <- (Z.opp_involutive a) at 2. rewrite Z.quot_opp_l by lia.
    f_equal. symmetry. apply Z.quot_div_nonneg; lia.
Qed.

Lemma Hours_days (d : Duration) :
  int_of_float (Hours d / inject_Z 24) = Z.quot d (24 * Hour).
Proof.
  rewrite (int_of_float_comp _ (d # 86400000000000)).
  - apply int_of_float_frac.
  - unfold Hours, Hour, Minute, Second.
    change (60 * (60 * 1000000000)) with 3600000000000.
    change (60 * 60 * 1000000000) with 3600000000000.
    pose proof (Z.quot_rem' d 3600000000000) as Hqr.
    set (q := Z.quot d 3600000000000) in *. set (r := Z.rem d 3600000000000) in *.
    unfold Qeq, Qdiv, Qplus, Qmult, Qinv, inject_Z. cbn. lia.
Qed.

Lemma DiffFromNowInDays_quot (p : Payment) (now : Time) :
  DiffFromNowInDays p now
  = Z.quot (Sub (due p) (ToDate (In now GreekTimeZone))) (24 * Hour).
Proof. unfold DiffFromNowInDays. cbv zeta. apply Hours_days. Qed.

Lemma DiffFromNowInDays_lower (p : Payment) (now : Time) :
  minDiff <= DiffFromNowInDays p now.
Proof.
  rewrite DiffFromNowInDays_quot.
  pose proof (Sub_range (due p) (ToDate (In now GreekTimeZone))) as [Hlo _].
  change minDiff with (Z.quot minDuration (24 * Hour)).
  apply Z.quot_le_mono; [reflexivity | exact Hlo].
Qed.

Lemma DiffFromNowInDays_NewPayment (description : string) (now : Time) :
  unixToInternal <= sec now ->
  DiffFromNowInDays (NewPayment description) now = minDiff.
Proof.
  intros Hnow. rewrite DiffFromNowInDays_quot. cbn [NewPayment due].
  pose proof (ToDate_lower now) as Hlow.
  destruct (ToDate_Athens now) as (o1 & o2 & _ & _ & Heq).
  rewrite Heq in *. cbn [sec] in Hlow.
  unfold Sub, zero. cbn [sec nsec].
  set (s := (sec now + o1) / secondsPerDay * secondsPerDay - o2) in *.
  change unixToInternal with 62135596800 in Hnow.
  replace ((minDuration <=? (0 - s) * Second + (0 - 0)) && _) with false.
  - replace ((0 <? s) || _) with true; [reflexivity|].
    symmetry. apply orb_true_iff. left. apply Z.ltb_lt. lia.
  - symmetry. apply andb_false_iff. left. apply Z.leb_gt.
    unfold minDuration, Second. lia.
Qed.

End TimeFacts.

(** ** Classification *)

Module Classifier.
Import TimeFacts.

Lemma Time_eqb_eq (t u : time.Time) : time.Time_eqb t u = true <-> t = u.
Proof.
  unfold time.Time_eqb. destruct t as [s1 n1 l1], u as [s2 n2 l2]. cbn.
  rewrite !andb_true_iff, !Z.eqb_eq. split.
  - intros [[-> ->] Hl]. f_equal.
    destruct l1, l2; cbn in Hl; try discriminate; try reflexivity.
    apply Z.eqb_eq in Hl. now subst.
  - intros H. injection H as -> -> ->. repeat split.
    destruct l2; cbn; try reflexivity. apply Z.eqb_refl.
Qed.

Lemma IsDue_false (p : Payment) : IsDue p = false <-> due p = time.zero.
Proof.
  unfold IsDue. rewrite negb_false_iff. apply Time_eqb_eq.
Qed.

Lemma IsDue_NewPayment (description : string) : IsDue (NewPayment description) = false.
Proof. reflexivity. Qed.

Lemma IsDue_WithDueDate (p : Payment) (t : time.Time) : IsDue (WithDueDate p t) = true.
Proof.
  unfold IsDue, WithDueDate. cbn [due].
  destruct (ToDate_Athens t) as (o1 & o2 & _ & _ & ->).
  unfold time.Time_eqb. cbn. now rewrite andb_false_r.
Qed.

(** A loop that appends the elements it keeps is a filter. *)
Lemma append_loop_filter {A : Type} (keep : A -> bool) (body : list A -> A -> list A) :
  (forall acc x, body acc x = if keep x then acc ++ [x] else acc) ->
  forall xs acc, fold_left body xs acc = acc ++ filter keep xs.
Proof.
  intros Hbody xs. induction xs as [|x xs IH]; intros acc; cbn.
  - now rewrite app_nil_r.
  - rewrite IH, Hbody. destruct (keep x); [|reflexivity].
    now rewrite <- app_assoc.
Qed.

Lemma FindPaymentsAt_filter (payments : list Payment) (diff : Z) (now : time.Time) :
  FindPaymentsAt payments diff now = filter (due_at diff now) payments.
Proof.
  unfold FindPaymentsAt. rewrite (append_loop_filter (due_at diff now)); [reflexivity|].
  intros acc p. unfold due_at. destruct (IsDue p); reflexivity.
Qed.

Lemma FindPaymentsUntil_filter (payments : list Payment) (maxDiff : Z) (now : time.Time) :
  FindPaymentsUntil payments maxDiff now = filter (due_until maxDiff now) payments.
Proof.
  unfold FindPaymentsUntil. rewrite (append_loop_filter (due_until maxDiff now)); [reflexivity|].
  intros acc p. unfold due_until. destruct (IsDue p); reflexivity.
Qed.

Lemma filter_subsequence {A : Type} (keep : A -> bool) (xs : list A) :
  subsequence (filter keep xs) xs.
Proof.
  induction xs as [|x xs IH]; cbn.
  - constructor.
  - destruct (keep x); constructor; exact IH.
Qed.

(** What the loop of [SummarizePaymentsComingUp] collects was in the
    slice before or is a date-scheduled payment of the input. *)
Lemma comingUp_loop_In (w : Z) (clk : Clock) (P : Payment) :
  forall ps acc n,
    In P (fst (forRange
                 (fun found p =>
                    if negb (IsDue p) then ret found
                    else
                      now <- Now ;;
                      let d := DiffFromNowInDays p now in
                      if (1 <=? d) && (d <=? w) then ret (found ++ [p])
                      else ret found) ps acc clk n)) ->
    In P acc \/ (In P ps /\ IsDue P = true).
Proof.
  induction ps as [|p ps IH]; intros acc n H.
  - left. exact H.
  - cbn [forRange] in H. unfold bind at 1 in H.
    destruct (IsDue p) eqn:Ep; cbn [negb] in H.
    + unfold bind at 1, Now in H.
      destruct ((1 <=? DiffFromNowInDays p (clk n)) && (DiffFromNowInDays p (clk n) <=? w));
        unfold ret at 1 in H; apply IH in H as [H|[H1 H2]].
      * apply in_app_or in H as [H|[<-|[]]]; [left; exact H|].
        right. split; [left; reflexivity|exact Ep].
      * right. split; [right; exact H1|exact H2].
      * left. exact H.
      * right. split; [right; exact H1|exact H2].
    + unfold ret at 1 in H. apply IH in H as [H|[H1 H2]]; [left; exact H|].
      right. split; [right; exact H1|exact H2].
Qed.

Lemma totalPending_loop (w : Z) (clk : Clock) :
  forall ps acc n,
    forRange
      (fun n p =>
         now <- Now ;;
         if DiffFromNowInDays p now <=? w then ret (n + 1) else ret n) ps acc clk n
    = (acc + len (filter (pending_at clk w) (turns n ps)), (n + List.length ps)%nat).
Proof.
  induction ps as [|p ps IH]; intros acc n.
  - cbn. unfold ret, len. cbn. f_equal; lia.
  - cbn [forRange]. unfold bind at 1. unfold bind at 1, Now.
    unfold turns. cbn [List.length seq combine filter].
    unfold pending_at at 1. cbn [fst snd].
    destruct (DiffFromNowInDays p (clk n) <=? w); unfold ret at 1;
      rewrite IH; unfold turns, len; cbn [List.length]; f_equal; lia.
Qed.

Lemma totalPending_eq (ps : list Payment) (w : Z) (clk : Clock) (n : nat) :
  totalPending ps w clk n
  = (len (filter (pending_at clk w) (turns n ps)), (n + List.length ps)%nat).
Proof. unfold totalPending. now rewrite totalPending_loop. Qed.

Lemma filter_length_le {A B : Type} (f : A -> bool) (g : B -> bool) (h : B -> A) :
  (forall b, f (h b) = true -> g b = true) ->
  forall bs, (List.length (filter f (map h bs)) <= List.length (filter g bs))%nat.
Proof.
  intros Hfg bs. induction bs as [|b bs IH]; cbn; [lia|].
  destruct (f (h b)) eqn:E.
  - rewrite (Hfg b E). cbn. lia.
  - destruct (g b); cbn; lia.
Qed.

Lemma turns_snd {A : Type} (ps : list A) : forall n, map snd (turns n ps) = ps.
Proof.
  unfold turns. induction ps as [|p ps IH]; intros n; cbn; [reflexivity|].
  now rewrite IH.
Qed.

End Classifier.

(** ** The claims on classification *)

Import TimeFacts Classifier.

(** C6 (as amended).  [FindPaymentsAt] returns exactly the date-scheduled
    payments whose day difference equals [diff], and [FindPaymentsUntil]
    exactly the date-scheduled payments whose day difference is at most
    [maxDiff]; both keep the order of the input, the output being a
    subsequence of it. *)
Theorem FindPayments_stable_filter (payments : list Payment) (diff : Z) (now : time.Time) :
  FindPaymentsAt payments diff now = filter (due_at diff now) payments
  /\ FindPaymentsUntil payments diff now = filter (due_until diff now) payments
  /\ subsequence (FindPaymentsAt payments diff now) payments
  /\ subsequence (FindPaymentsUntil payments diff now) payments.
Proof.
  rewrite FindPaymentsAt_filter, FindPaymentsUntil_filter.
  repeat split; try reflexivity; apply filter_subsequence.
Qed.

(** C6 as stated fails: a payment without due date has a day difference
    of at most -1 and is not returned by [FindPaymentsUntil _ (-1) _], and has
    the day difference [minDiff] and is not returned by
    [FindPaymentsAt _ minDiff _]. *)
Lemma FindPayments_not_all_with_diff :
  let now := day_ 2023 11 5 in
  FindPaymentsUntil [rent] (-1) now <> spec_findUntil [rent] (-1) now
  /\ FindPaymentsAt [rent] minDiff now <> spec_findAt [rent] minDiff now.
Proof. split; vm_compute; discriminate. Qed.

(** C7.  A payment that is not date-scheduled is in no result of
    [FindPaymentsAt], of [FindPaymentsUntil] or of the coming-up loop,
    whatever the other payments, the parameters and the clock. *)
Theorem not_due_never_found (P : Payment) (H : IsDue P = false) :
  forall (payments : list Payment) (diff window : Z) (now : time.Time)
         (clk : Clock) (n : nat),
    ~ In P (FindPaymentsAt payments diff now)
    /\ ~ In P (FindPaymentsUntil payments diff now)
    /\ ~ In P (fst (comingUp payments window clk n)).
Proof.
  intros payments diff window now clk n.
  rewrite FindPaymentsAt_filter, FindPaymentsUntil_filter.
  repeat split; intros Hin.
  - apply filter_In in Hin as [_ Hk]. unfold due_at in Hk. rewrite H in Hk. discriminate.
  - apply filter_In in Hin as [_ Hk]. unfold due_until in Hk. rewrite H in Hk. discriminate.
  - apply (comingUp_loop_In window clk P payments [] n) in Hin as [[]|[_ Hd]].
    congruence.
Qed.

Lemma not_due_never_found_witness :
  IsDue rent = false
  /\ (let payments := [rent; WithDueDate (NewPayment "gas") (day_ 2023 11 6)] in
      let now := day_ 2023 11 5 in
      ~ In rent (FindPaymentsAt payments 1 now)
      /\ ~ In rent (FindPaymentsUntil payments 1 now)
      /\ ~ In rent (fst (comingUp payments 2 (always now) 0%nat))).
Proof.
  split; [reflexivity|].
  apply (not_due_never_found rent); reflexivity.
Defined.

(** C2 (as amended).  The loop of [SummarizeTotalPayments] counts every
    payment, date-scheduled or not, whose day difference at the clock
    reading of its turn is at most the window, and reads the clock once
    per payment; with a clock that shows instants since 1970 and a window
    of at least [minDiff] days, every payment without due date is
    counted. *)
Theorem totalPending_counts_every_payment
    (payments : list Payment) (window : Z) (clk : Clock) (n : nat) :
  totalPending payments window clk n
  = (len (filter (pending_at clk window) (turns n payments)),
     (n + List.length payments)%nat)
  /\ ((forall k, time.unixToInternal <= time.sec (clk k)) -> minDiff <= window ->
      len (filter (fun p => negb (IsDue p)) payments)
      <= fst (totalPending payments window clk n)).
Proof.
  split; [apply totalPending_eq|].
  intros Hclk Hw. rewrite totalPending_eq. cbn [fst].
  rewrite <- (turns_snd payments n) at 1. unfold len.
  apply inj_le. apply filter_length_le.
  intros [k p] Hp. cbn [snd] in Hp. unfold pending_at. cbn [fst snd].
  apply negb_true_iff in Hp. apply IsDue_false in Hp.
  destruct p as [d t]. cbn in Hp. subst t.
  change (mkPayment d time.zero) with (NewPayment d).
  rewrite DiffFromNowInDays_NewPayment by apply Hclk.
  apply Z.leb_le. exact Hw.
Qed.

Lemma totalPending_counts_every_payment_witness :
  let clk := always (day_ 2023 11 5) in
  (forall k, time.unixToInternal <= time.sec (clk k)) /\ minDiff <= 30
  /\ 1 <= fst (totalPending [rent] 30 clk 0%nat).
Proof.
  assert (Hclk : forall k : nat, time.unixToInternal <= time.sec (always (day_ 2023 11 5) k)).
  { intros k. vm_compute. discriminate. }
  assert (Hw : minDiff <= 30) by (vm_compute; discriminate).
  split; [exact Hclk|]. split; [exact Hw|].
  exact (proj2 (totalPending_counts_every_payment [rent] 30 (always (day_ 2023 11 5)) 0%nat)
           Hclk Hw).
Defined.

(** C2 as stated fails: one payment without due date makes the total 1,
    where the count of date-scheduled payments within the window is 0. *)
Lemma totalPending_counts_not_due :
  let now := day_ 2023 11 5 in
  fst (totalPending [rent] 30 (always now) 0%nat) <> spec_countPendingWithin [rent] 30 now
  /\ fst (SummarizeTotalPayments [rent] 30 (always now) 0%nat)
     = "💰 Total 1 payments pending during the next 30 days".
Proof. split; vm_compute; [discriminate|reflexivity]. Qed.

(** C10.  [DiffFromNowInDays] has a value on a payment without due date:
    for every instant since 1970 it is [minDiff] = -106751, the day count
    of the saturated difference to the zero time.  No payment has a
    smaller day difference at any instant, so that such a payment satisfies
    every threshold [delta <= maxDiff] that a payment can satisfy at all,
    among them every [maxDiff >= minDiff]. *)
Theorem DiffFromNowInDays_not_due (description : string) (now : time.Time)
    (Hnow : time.unixToInternal <= time.sec now) :
  IsDue (NewPayment description) = false
  /\ DiffFromNowInDays (NewPayment description) now = minDiff
  /\ (forall maxDiff, minDiff <= maxDiff ->
        DiffFromNowInDays (NewPayment description) now <= maxDiff)
  /\ (forall maxDiff p' now', DiffFromNowInDays p' now' <= maxDiff ->
        DiffFromNowInDays (NewPayment description) now <= maxDiff).
Proof.
  rewrite (DiffFromNowInDays_NewPayment description now Hnow).
  repeat split.
  - intros maxDiff H. exact H.
  - intros maxDiff p' now' H.
    pose proof (DiffFromNowInDays_lower p' now'). lia.
Qed.

Lemma DiffFromNowInDays_not_due_witness :
  let now := at_ 2023 11 3 9 7200 in
  time.unixToInternal <= time.sec now
  /\ DiffFromNowInDays rent now = -106751
  /\ DiffFromNowInDays rent now <= -1
  /\ DiffFromNowInDays rent now <= 30.
Proof.
  assert (Hnow : time.unixToInternal <= time.sec (at_ 2023 11 3 9 7200))
    by (vm_compute; discriminate).
  destruct (DiffFromNowInDays_not_due "rent" (at_ 2023 11 3 9 7200) Hnow)
    as (_ & Heq & Hle & _).
  split; [exact Hnow|]. split; [exact Heq|].
  split; apply Hle; vm_compute; discriminate.
Defined.

(** C3 at the change to summer time of 2023 (the night of March 26).
    With the clock at 09:00 of March 26 in Athens, a payment due on March 27
    is 23 hours away from the midnight of the clock's day and gets the day
    difference 0, where the calendar says 1 (tomorrow); with the clock on
    March 27, a payment due on March 26 gets 0 as well, where the calendar
    says -1 (yesterday). *)
Theorem DiffFromNowInDays_spring_forward :
  let tomorrow := WithDueDate (NewPayment "rent") (day_ 2023 3 27) in
  let now := at_ 2023 3 26 9 7200 in
  let yesterday := WithDueDate (NewPayment "rent") (day_ 2023 3 26) in
  let now' := at_ 2023 3 27 9 10800 in
  time.date (time.In now GreekTimeZone) = (2023, 3, 26)
  /\ time.date (due tomorrow) = (2023, 3, 27)
  /\ time.Sub (due tomorrow) (ToDate (time.In now GreekTimeZone)) = 23 * time.Hour
  /\ DiffFromNowInDays tomorrow now = 0
  /\ time.date (time.In now' GreekTimeZone) = (2023, 3, 27)
  /\ time.date (due yesterday) = (2023, 3, 26)
  /\ DiffFromNowInDays yesterday now' = 0.
Proof. vm_compute. repeat split. Qed.

(** Away from such a change the count is the calendar's: when the
    midnight of the due date and the midnight of the clock's day are [k]
    days of 24 hours apart, the day difference is [k]. *)
Lemma DiffFromNowInDays_whole_days (p : Payment) (t now : time.Time) (k : Z) :
  time.sec (due (WithDueDate p t)) - time.sec (ToDate (time.In now GreekTimeZone))
  = k * time.secondsPerDay ->
  minDiff <= k <= - minDiff ->
  DiffFromNowInDays (WithDueDate p t) now = k.
Proof.
  rewrite DiffFromNowInDays_quot. unfold WithDueDate. cbn [due].
  destruct (ToDate_Athens t) as (a1 & a2 & _ & _ & ->).
  destruct (ToDate_Athens now) as (b1 & b2 & _ & _ & ->).
  cbn [time.sec]. intros Hk Hr. unfold time.Sub. cbn [time.sec time.nsec].
  rewrite Hk. unfold minDiff, time.secondsPerDay in *.
  replace ((time.minDuration <=? _) && _) with true.
  - unfold time.Second, time.Hour, time.Minute, time.Second.
    replace (k * 86400 * 1000000000 + (0 - 0)) with (k * (24 * (60 * (60 * 1000000000))))
      by lia.
    apply Z.quot_mul. lia.
  - symmetry. apply andb_true_iff.
    unfold time.minDuration, time.maxDuration, time.Second.
    split; apply Z.leb_le; lia.
Qed.


(** ** Ingestion *)

Module Ingestion.
Import Classifier.

Lemma index_Ok (row : Row) (i : Z) (v : Value) :
  index row i = Ok v -> 0 <= i < len row.
Proof.
  unfold index, len. destruct (Z.ltb_spec i 0); [discriminate|].
  destruct (nth_error row (Z.to_nat i)) eqn:E; [|discriminate].
  intros _. assert (Hn : nth_error row (Z.to_nat i) <> None) by congruence.
  apply nth_error_Some in Hn. lia.
Qed.

Lemma len_nonneg {A : Type} (l : list A) : 0 <= len l.
Proof. unfold len. lia. Qed.

Lemma len_app {A : Type} (l1 l2 : list A) : len (l1 ++ l2) = len l1 + len l2.
Proof. unfold len. rewrite length_app. lia. Qed.

(** The header scan never lowers an index below -1. *)
Lemma scanHeader_lower (header : Row) :
  forall idx a b c a' b' c',
    scanHeader header idx (a, b, c) = Ok (a', b', c') ->
    0 <= idx -> -1 <= a -> -1 <= b -> -1 <= c ->
    -1 <= a' /\ -1 <= b' /\ -1 <= c'.
Proof.
  induction header as [|v header IH]; intros idx a b c a' b' c' H Hidx Ha Hb Hc.
  - cbn in H. injection H as <- <- <-. lia.
  - cbn [scanHeader] in H. destruct (assertString v) as [val| |]; try discriminate.
    apply IH in H; try lia;
      repeat match goal with |- context [if ?x then _ else _] => destruct x end; lia.
Qed.

(** A header that carries the label "Due Date" resolves the due-date
    column. *)
Lemma scanHeader_due_found (header : Row) :
  forall idx a b c a' b' c',
    scanHeader header idx (a, b, c) = Ok (a', b', c') ->
    0 <= idx -> (In (VString "Due Date") header \/ 0 <= b) -> 0 <= b'.
Proof.
  induction header as [|v header IH]; intros idx a b c a' b' c' H Hidx Hin.
  - cbn in H. injection H as <- <- <-. destruct Hin as [[]|Hb]. exact Hb.
  - cbn [scanHeader] in H. destruct (assertString v) as [val| |] eqn:Ev; try discriminate.
    apply IH in H; [exact H|lia|].
    destruct Hin as [[->|Hin]|Hb].
    + cbn in Ev. injection Ev as <-. right. cbn. exact Hidx.
    + left. exact Hin.
    + right. destruct (val =? "Due Date")%string; lia.
Qed.

(** A header without the label leaves the due-date index as it was. *)
Lemma scanHeader_due_absent (header : Row) :
  forall idx a b c a' b' c',
    scanHeader header idx (a, b, c) = Ok (a', b', c') ->
    ~ In (VString "Due Date") header -> b' = b.
Proof.
  induction header as [|v header IH]; intros idx a b c a' b' c' H Hnot.
  - cbn in H. now injection H as <- <- <-.
  - cbn [scanHeader] in H. destruct v as [val| |]; cbn [assertString] in H; try discriminate.
    apply IH in H; [|intros Hin; apply Hnot; right; exact Hin].
    destruct (String.eqb_spec val "Due Date") as [->|_]; [|exact H].
    exfalso. apply Hnot. left. reflexivity.
Qed.

(** One turn of the row loop is the same for every row number and every
    earlier due-date text, but for the number inside an error. *)
Lemma readRow_agree (di du pi : Z) (row : Row) (acc : list Payment) :
  -1 <= du ->
  forall idx idx' dd dd',
    step_agree (readRow di du pi idx row acc dd) (readRow di du pi idx' row acc dd').
Proof.
  intros Hdu idx idx' dd dd'. unfold readRow.
  destruct (len row - 1 <? di); [exact I|].
  destruct (len row - 1 <? du); [exact I|].
  destruct (len row - 1 <? pi); [exact I|].
  destruct (index row di) as [v| |]; try exact I.
  destruct (assertString v) as [desc| |]; try exact I.
  destruct (Z.leb_spec 0 du) as [H0|H0].
  - destruct (index row du) as [w| |]; try exact I.
    destruct (assertString w) as [s| |]; try exact I.
    destruct (index row pi) as [x| |]; try exact I.
    destruct (assertString x) as [pay| |]; try exact I.
    destruct (negb (pay =? "")%string); [reflexivity|].
    destruct (du =? -1); [reflexivity|].
    destruct (time.ParseDateOnly s); [reflexivity|exact I].
  - assert (du = -1) as -> by lia.
    destruct (index row pi) as [x| |]; try exact I.
    destruct (assertString x) as [pay| |]; try exact I.
    destruct (negb (pay =? "")%string); reflexivity.
Qed.

Lemma agree_refl_class (r : result (list Payment)) : agree r r.
Proof. destruct r; cbn; auto. Qed.

Lemma readRows_agree (di du pi : Z) :
  -1 <= du ->
  forall rows idx idx' acc dd dd',
    agree (readRows di du pi rows idx acc dd) (readRows di du pi rows idx' acc dd').
Proof.
  intros Hdu rows. induction rows as [|row rows IH]; intros idx idx' acc dd dd'.
  - reflexivity.
  - cbn [readRows].
    pose proof (readRow_agree di du pi row acc Hdu idx idx' dd dd') as H.
    destruct (readRow di du pi idx row acc dd), (readRow di du pi idx' row acc dd');
      cbn in H; try contradiction; try exact I.
    subst. apply IH.
Qed.

(** The loop over the rows before a row, when it succeeds, hands the
    payments read so far and the row number on to the rest. *)
Lemma readRows_app (di du pi : Z) (rest : list Row) :
  forall pre idx acc dd,
    match readRows di du pi pre idx acc dd with
    | Ok ps => exists dd',
        readRows di du pi (pre ++ rest) idx acc dd
        = readRows di du pi rest (idx + len pre) ps dd'
    | Err e => readRows di du pi (pre ++ rest) idx acc dd = Err e
    | Panic => readRows di du pi (pre ++ rest) idx acc dd = Panic
    end.
Proof.
  induction pre as [|row pre IH]; intros idx acc dd.
  - cbn. exists dd. f_equal. unfold len. cbn. lia.
  - cbn [readRows app].
    destruct (readRow di du pi idx row acc dd) as [acc' dd'| |]; try reflexivity.
    specialize (IH (idx + 1) acc' dd').
    destruct (readRows di du pi pre (idx + 1) acc' dd'); try exact IH.
    destruct IH as [dd'' IH]. exists dd''. rewrite IH. f_equal.
    unfold len. cbn [List.length]. lia.
Qed.

(** What [readPayments] does once the header has been scanned. *)
Lemma readPayments_cons (header : Row) (data : list Row) (di du pi : Z) :
  scanHeader header 0 (-1, -1, -1) = Ok (di, du, pi) ->
  readPayments (header :: data) =
  if di =? -1 then Err ErrDescriptionHeader
  else if pi =? -1 then Err ErrPaymentDateHeader
  else readRows di du pi data 0 [] "".
Proof. intros H. unfold readPayments. rewrite H. reflexivity. Qed.

(** A settled row: the turn of the loop keeps the payments as they
    are. *)
Lemma readRow_settled (di du pi idx : Z) (row : Row) (acc : list Payment) (dd : string)
    (desc pay : string) :
  index row di = Ok (VString desc) ->
  (du = -1 \/ exists s, index row du = Ok (VString s)) ->
  index row pi = Ok (VString pay) -> pay <> "" ->
  exists dd', readRow di du pi idx row acc dd = Continue acc dd'.
Proof.
  intros Hdesc Hdue Hpay Hne. unfold readRow.
  pose proof (index_Ok _ _ _ Hdesc) as Hdi. pose proof (index_Ok _ _ _ Hpay) as Hpi.
  pose proof (len_nonneg row) as Hlen.
  assert (Hdu : du < len row).
  { destruct Hdue as [->|[s Hs]]; [lia|]. apply index_Ok in Hs. lia. }
  replace (len row - 1 <? di) with false by (symmetry; apply Z.ltb_ge; lia).
  replace (len row - 1 <? du) with false by (symmetry; apply Z.ltb_ge; lia).
  replace (len row - 1 <? pi) with false by (symmetry; apply Z.ltb_ge; lia).
  rewrite Hdesc, Hpay. cbn [assertString].
  assert (Hpe : negb (pay =? "")%string = true).
  { apply negb_true_iff. apply String.eqb_neq. exact Hne. }
  destruct Hdue as [->|[s Hs]].
  - cbn. rewrite Hpe. eexists. reflexivity.
  - rewrite Hs. cbn [assertString]. destruct (0 <=? du); rewrite Hpe; eexists; reflexivity.
Qed.

(** A settled row, whatever its other cells: the turn adds no payment
    and returns no parse error. *)
Lemma readRow_settled_any (di du pi idx : Z) (row : Row) (acc : list Payment) (dd : string)
    (pay : string) :
  index row pi = Ok (VString pay) -> pay <> "" ->
  match readRow di du pi idx row acc dd with
  | Continue acc' _ => acc' = acc
  | Return e => e = ErrReadDescription di idx \/ e = ErrReadDueDate du idx
  | Panics => True
  end.
Proof.
  intros Hpay Hne. unfold readRow.
  pose proof (index_Ok _ _ _ Hpay) as Hpi.
  assert (Hpe : negb (pay =? "")%string = true).
  { apply negb_true_iff. apply String.eqb_neq. exact Hne. }
  destruct (len row - 1 <? di); [left; reflexivity|].
  destruct (len row - 1 <? du); [right; reflexivity|].
  replace (len row - 1 <? pi) with false by (symmetry; apply Z.ltb_ge; lia).
  rewrite Hpay. cbn [assertString]. rewrite Hpe.
  destruct (index row di) as [v| |]; try exact I.
  destruct (assertString v); try exact I.
  destruct (0 <=? du); [|reflexivity].
  destruct (index row du) as [w| |]; try exact I.
  destruct (assertString w); try exact I. reflexivity.
Qed.

(** A pending row on a sheet with a due-date column whose due-date text
    is not a date. *)
Lemma readRow_malformed (di du pi idx : Z) (row : Row) (acc : list Payment) (dd : string)
    (desc s : string) (err : time.ParseError) :
  0 <= du ->
  index row di = Ok (VString desc) ->
  index row du = Ok (VString s) ->
  index row pi = Ok (VString "") ->
  time.ParseDateOnly s = inr err ->
  readRow di du pi idx row acc dd = Return (ErrParseDueDate s err).
Proof.
  intros Hdu Hdesc Hdue Hpay Hparse. unfold readRow.
  pose proof (index_Ok _ _ _ Hdesc). pose proof (index_Ok _ _ _ Hdue).
  pose proof (index_Ok _ _ _ Hpay).
  replace (len row - 1 <? di) with false by (symmetry; apply Z.ltb_ge; lia).
  replace (len row - 1 <? du) with false by (symmetry; apply Z.ltb_ge; lia).
  replace (len row - 1 <? pi) with false by (symmetry; apply Z.ltb_ge; lia).
  rewrite Hdesc, Hdue, Hpay. cbn [assertString].
  replace (0 <=? du) with true by (symmetry; apply Z.leb_le; lia).
  cbn [String.eqb negb].
  replace (du =? -1) with false by (symmetry; apply Z.eqb_neq; lia).
  rewrite Hparse. reflexivity.
Qed.

(** On a sheet with a due-date column the loop adds date-scheduled
    payments only. *)
Lemma readRows_all_due (di du pi : Z) :
  0 <= du ->
  forall rows idx acc dd ps,
    Forall (fun p => IsDue p = true) acc ->
    readRows di du pi rows idx acc dd = Ok ps ->
    Forall (fun p => IsDue p = true) ps.
Proof.
  intros Hdu rows. induction rows as [|row rows IH]; intros idx acc dd ps Hacc H.
  - cbn in H. injection H as <-. exact Hacc.
  - cbn [readRows] in H.
    destruct (readRow di du pi idx row acc dd) as [acc' dd'| |] eqn:E; try discriminate.
    apply IH in H; [exact H|]. clear IH H.
    unfold readRow in E.
    replace (du =? -1) with false in E by (symmetry; apply Z.eqb_neq; lia).
    repeat match type of E with
      | context [if ?c then _ else _] => destruct c
      | context [match ?x with _ => _ end] => destruct x
      end; try discriminate; injection E as <- _; try exact Hacc;
      (apply Forall_app; split; [exact Hacc|]);
      (constructor; [apply IsDue_WithDueDate|constructor]).
Qed.




(** The rows before a row having been read, a turn that returns an
    error ends the ingestion with that error. *)
Lemma readPayments_row_error (header : Row) (pre post : list Row) (row : Row)
    (di du pi : Z) (ps : list Payment) (e : Z -> error) :
  scanHeader header 0 (-1, -1, -1) = Ok (di, du, pi) ->
  readPayments (header :: pre) = Ok ps ->
  (forall idx acc dd, readRow di du pi idx row acc dd = Return (e idx)) ->
  readPayments (header :: pre ++ row :: post) = Err (e (len pre)).
Proof.
  intros Hh Hpre Hrow.
  rewrite (readPayments_cons _ _ _ _ _ Hh) in Hpre.
  rewrite (readPayments_cons _ _ _ _ _ Hh).
  destruct (di =? -1); [discriminate|]. destruct (pi =? -1); [discriminate|].
  pose proof (readRows_app di du pi (row :: post) pre 0 [] "") as Happ.
  rewrite Hpre in Happ. destruct Happ as [dd' ->].
  cbn [readRows]. rewrite Hrow. reflexivity.
Qed.

End Ingestion.

Import Ingestion.

(** C8.  A row whose payment-date cell is a non-empty text adds no payment
    to the list and raises no parse error, whatever its due-date cell
    holds; when its description and due-date cells are there as texts,
    the ingestion of the sheet comes out as it does without the row. *)
Theorem settled_row_dropped (header : Row) (pre post : list Row) (row : Row)
    (di du pi : Z) (pay : string)
    (Hh : scanHeader header 0 (-1, -1, -1) = Ok (di, du, pi))
    (Hpay : index row pi = Ok (VString pay)) (Hne : pay <> "") :
  (forall idx acc dd,
      match readRow di du pi idx row acc dd with
      | Continue acc' _ => acc' = acc
      | Return e => e = ErrReadDescription di idx \/ e = ErrReadDueDate du idx
      | Panics => True
      end)
  /\ (forall desc,
        index row di = Ok (VString desc) ->
        (du = -1 \/ exists s, index row du = Ok (VString s)) ->
        agree (readPayments (header :: pre ++ row :: post))
              (readPayments (header :: pre ++ post))).
Proof.
  split.
  - intros idx acc dd. exact (readRow_settled_any di du pi idx row acc dd pay Hpay Hne).
  - intros desc Hdesc Hdue.
    rewrite !(readPayments_cons _ _ _ _ _ Hh).
    destruct (di =? -1); [exact I|]. destruct (pi =? -1); [exact I|].
    assert (Hdu : -1 <= du).
    { apply (scanHeader_lower header 0 (-1) (-1) (-1) di du pi Hh); lia. }
    pose proof (readRows_app di du pi (row :: post) pre 0 [] "") as H1.
    pose proof (readRows_app di du pi post pre 0 [] "") as H2.
    destruct (readRows di du pi pre 0 [] "") as [ps|e|].
    + destruct H1 as [d1 ->]. destruct H2 as [d2 ->]. cbn [readRows].
      destruct (readRow_settled di du pi (0 + len pre) row ps d1 desc pay
                  Hdesc Hdue Hpay Hne) as [d3 ->].
      apply readRows_agree. exact Hdu.
    + rewrite H1, H2. exact I.
    + rewrite H1, H2. exact I.
Qed.

Lemma settled_row_dropped_witness :
  let pre := [[S_ "gas"; S_ "2023-11-04"; S_ ""]] in
  let row := [S_ "rent"; S_ "not-a-date"; S_ "2023-11-01"] in
  let post := [[S_ "water"; S_ "2023-11-06"; S_ ""]] in
  scanHeader scheduledHeader 0 (-1, -1, -1) = Ok (0, 1, 2)
  /\ index row 2 = Ok (VString "2023-11-01")
  /\ "2023-11-01" <> ""
  /\ agree (readPayments (scheduledHeader :: pre ++ row :: post))
           (readPayments (scheduledHeader :: pre ++ post)).
Proof.
  intros pre row post.
  assert (Hh : scanHeader scheduledHeader 0 (-1, -1, -1) = Ok (0, 1, 2)) by reflexivity.
  assert (Hpay : index row 2 = Ok (VString "2023-11-01")) by reflexivity.
  assert (Hne : "2023-11-01" <> "") by discriminate.
  split; [exact Hh|]. split; [exact Hpay|]. split; [exact Hne|].
  apply (proj2 (settled_row_dropped scheduledHeader pre post row 0 1 2 "2023-11-01"
                  Hh Hpay Hne) "rent").
  - reflexivity.
  - right. exists "not-a-date". reflexivity.
Defined.

(** C1 (as amended).  On a sheet with a due-date column, a pending row
    whose due-date text is not a date in the form YYYY-MM-DD ends the
    ingestion with the parse error that carries the text; the empty text
    is not a date.  Every payment ingested from such a sheet is
    date-scheduled: none carries the description only. *)
Theorem unparsable_due_date_fails (header : Row) (pre post : list Row) (row : Row)
    (di du pi : Z) (desc s : string) (err : time.ParseError) (ps : list Payment)
    (Hcol : In (VString "Due Date") header)
    (Hh : scanHeader header 0 (-1, -1, -1) = Ok (di, du, pi))
    (Hpre : readPayments (header :: pre) = Ok ps)
    (Hdesc : index row di = Ok (VString desc))
    (Hdue : index row du = Ok (VString s))
    (Hpay : index row pi = Ok (VString ""))
    (Hparse : time.ParseDateOnly s = inr err) :
  readPayments (header :: pre ++ row :: post) = Err (ErrParseDueDate s err)
  /\ time.ParseDateOnly "" = inr (time.mkParseError time.DateOnly "")
  /\ (forall data ps',
        readPayments (header :: data) = Ok ps' ->
        Forall (fun p => IsDue p = true) ps').
Proof.
  assert (Hdu : 0 <= du).
  { apply (scanHeader_due_found header 0 (-1) (-1) (-1) di du pi Hh); [lia|].
    left. exact Hcol. }
  split; [|split].
  - apply (readPayments_row_error header pre post row di du pi ps
             (fun _ => ErrParseDueDate s err) Hh Hpre).
    intros idx acc dd. now apply (readRow_malformed di du pi idx row acc dd desc).
  - reflexivity.
  - intros data ps' H. rewrite (readPayments_cons _ _ _ _ _ Hh) in H.
    destruct (di =? -1); [discriminate|]. destruct (pi =? -1); [discriminate|].
    apply (readRows_all_due di du pi Hdu data 0 [] "" ps'); [constructor|exact H].
Qed.

Lemma unparsable_due_date_fails_witness :
  let pre := [[S_ "gas"; S_ "2023-11-04"; S_ ""]] in
  let row := [S_ "rent"; S_ ""; S_ ""] in
  readPayments (scheduledHeader :: pre ++ [row])
  = Err (ErrParseDueDate "" (time.mkParseError time.DateOnly "")).
Proof.
  intros pre row.
  refine (proj1 (unparsable_due_date_fails scheduledHeader pre [] row 0 1 2 "rent" ""
                   (time.mkParseError time.DateOnly "")
                   [WithDueDate (NewPayment "gas") (day_ 2023 11 4)]
                   _ _ _ _ _ _ _)); try reflexivity.
  right. left. reflexivity.
Defined.

(** C1 as stated fails: the row with an empty due-date cell ends the
    ingestion with a parse error; no payment comes out. *)
Lemma empty_due_date_is_an_error :
  let rows := [scheduledHeader; [S_ "rent"; S_ ""; S_ ""]] in
  readPayments rows = Err (ErrParseDueDate "" (time.mkParseError time.DateOnly ""))
  /\ readPayments rows <> Ok [NewPayment "rent"].
Proof. split; [reflexivity|discriminate]. Qed.




(** ** The report *)

Module Report.
Import Classifier.

Lemma descriptions_map (ps : list Payment) : descriptions ps = map description ps.
Proof.
  unfold descriptions.
  assert (H : forall xs acc,
             fold_left (fun ds p => ds ++ [description p]) xs acc
             = acc ++ map description xs).
  { induction xs as [|x xs IH]; intros acc; cbn.
    - now rewrite app_nil_r.
    - rewrite IH, <- app_assoc. reflexivity. }
  apply H.
Qed.

Lemma sectionsOf_filter (summaries : list string) :
  sectionsOf summaries = filter nonEmpty summaries.
Proof.
  unfold sectionsOf. rewrite (append_loop_filter nonEmpty); reflexivity.
Qed.

Lemma assemble_spec (summaries : list string) :
  assemble summaries = spec_report (filter nonEmpty summaries).
Proof.
  unfold assemble. cbv zeta. rewrite sectionsOf_filter.
  destruct (filter nonEmpty summaries) as [|s l]; reflexivity.
Qed.

Lemma SummarizeDelayedPayments_eq (payments : list Payment) (clk : Clock) (n : nat) :
  SummarizeDelayedPayments payments clk n
  = (Join (spec_delayedLine (FindPaymentsUntil payments (-1) (clk n))) newline, S n).
Proof.
  unfold SummarizeDelayedPayments, bind, Now.
  destruct (FindPaymentsUntil payments (-1) (clk n)) as [|p l] eqn:E; [reflexivity|].
  rewrite descriptions_map. unfold spec_delayedLine, Join, ret. cbn [String.concat].
  reflexivity.
Qed.

Lemma SummarizePaymentsForToday_eq (payments : list Payment) (clk : Clock) (n : nat) :
  SummarizePaymentsForToday payments clk n
  = (spec_todayLine (FindPaymentsAt payments 0 (clk n)), S n).
Proof.
  unfold SummarizePaymentsForToday, bind, Now.
  destruct (FindPaymentsAt payments 0 (clk n)) as [|p l] eqn:E; [reflexivity|].
  rewrite descriptions_map. reflexivity.
Qed.

Lemma SummarizePaymentsComingUp_eq (payments : list Payment) (w : Z) (clk : Clock) (n : nat) :
  SummarizePaymentsComingUp payments w clk n
  = (spec_comingUpLine w (fst (comingUp payments w clk n)),
     snd (comingUp payments w clk n)).
Proof.
  unfold SummarizePaymentsComingUp, bind.
  destruct (comingUp payments w clk n) as [[|p l] n'] eqn:E; [reflexivity|].
  rewrite descriptions_map. reflexivity.
Qed.

Lemma SummarizeTotalPayments_eq (payments : list Payment) (w : Z) (clk : Clock) (n : nat) :
  SummarizeTotalPayments payments w clk n
  = (spec_totalLine w (fst (totalPending payments w clk n)),
     snd (totalPending payments w clk n)).
Proof.
  unfold SummarizeTotalPayments, bind.
  destruct (totalPending payments w clk n) as [k n']. reflexivity.
Qed.

Lemma nonEmpty_literal (c : ascii) (s t : string) :
  nonEmpty (String c s ++ t) = true.
Proof. reflexivity. Qed.

Lemma spec_todayLine_nonEmpty (bucket : list Payment) :
  nonEmpty (spec_todayLine bucket) = true.
Proof. destruct bucket; reflexivity. Qed.

Lemma spec_comingUpLine_nonEmpty (w : Z) (bucket : list Payment) :
  nonEmpty (spec_comingUpLine w bucket) = true.
Proof. destruct bucket; reflexivity. Qed.

Lemma spec_totalLine_nonEmpty (w k : Z) : nonEmpty (spec_totalLine w k) = true.
Proof. reflexivity. Qed.

(** The report is the join of the lines of the specification. *)
Lemma report_eq (payments : list Payment) (clk : Clock) (n : nat) :
  fst (report payments clk n)
  = Join (spec_delayedLine (FindPaymentsUntil payments (-1) (clk n))
          ++ [spec_todayLine (FindPaymentsAt payments 0 (clk (S n)));
              spec_comingUpLine 2 (fst (comingUp payments 2 clk (S (S n))));
              spec_totalLine 30
                (fst (totalPending payments 30 clk
                        (snd (comingUp payments 2 clk (S (S n))))))])
         newline.
Proof.
  unfold report, bind.
  rewrite SummarizeDelayedPayments_eq, SummarizePaymentsForToday_eq,
    SummarizePaymentsComingUp_eq, SummarizeTotalPayments_eq.
  unfold ret. cbn [fst]. rewrite assemble_spec.
  set (t := spec_todayLine _). set (c := spec_comingUpLine _ _). set (k := spec_totalLine _ _).
  destruct (FindPaymentsUntil payments (-1) (clk n)) as [|p l].
  - cbn [spec_delayedLine Join String.concat app filter].
    change (nonEmpty "") with false. cbv iota.
    cbn [filter]. subst t c k.
    rewrite spec_todayLine_nonEmpty, spec_comingUpLine_nonEmpty, spec_totalLine_nonEmpty.
    reflexivity.
  - cbn [spec_delayedLine Join String.concat app filter].
    rewrite nonEmpty_literal. subst t c k.
    rewrite spec_todayLine_nonEmpty, spec_comingUpLine_nonEmpty, spec_totalLine_nonEmpty.
    reflexivity.
Qed.

Lemma hasNewline_app (s t : string) :
  hasNewline (s ++ t) = hasNewline s || hasNewline t.
Proof.
  induction s as [|c s IH]; cbn; [reflexivity|].
  rewrite IH. now rewrite orb_assoc.
Qed.

Lemma hasNewline_Join (x y : string) (l : list string) :
  hasNewline (Join (x :: y :: l) newline) = true.
Proof.
  unfold Join. cbn [String.concat].
  rewrite !hasNewline_app. change (hasNewline newline) with true.
  now rewrite orb_true_r.
Qed.

Lemma report_hasNewline (payments : list Payment) (clk : Clock) (n : nat) :
  hasNewline (fst (report payments clk n)) = true.
Proof.
  rewrite report_eq.
  destruct (FindPaymentsUntil payments (-1) (clk n)) as [|p l];
    cbn [spec_delayedLine app]; apply hasNewline_Join.
Qed.

End Report.

Import Report.

Module Lines.

Lemma append_assoc (a b c : string) : ((a ++ b) ++ c = a ++ (b ++ c))%string.
Proof. induction a as [|x a IH]; cbn; [reflexivity|]. now rewrite IH. Qed.

Lemma Join_comma (l : list string) : Join l ", " = commaSeparated l.
Proof.
  unfold Join. induction l as [|s rest IH]; [reflexivity|].
  cbn [String.concat commaSeparated]. destruct rest as [|s' rest']; [reflexivity|].
  now rewrite IH.
Qed.

Lemma Join_newline (l : list string) : Join l newline = lineSeparated l.
Proof.
  unfold Join. induction l as [|s rest IH]; [reflexivity|].
  cbn [String.concat lineSeparated]. destruct rest as [|s' rest']; [reflexivity|].
  now rewrite IH.
Qed.

Lemma filter_empty (summaries : list string) :
  Forall (fun s => s = "") summaries ->
  filter (fun s => negb (s =? "")%string) summaries = [].
Proof.
  induction 1 as [|s l Hs _ IH]; [reflexivity|]. cbn [filter]. now rewrite Hs, IH.
Qed.

End Lines.

Import Lines.

(** C4.  The report is, in this order, the delayed line followed by a
    newline when some payment is delayed and nothing when none is; the
    line of today or its placeholder; a newline; the line of the coming two
    days or its placeholder; a newline; and the total line for thirty days.
    The descriptions of a line are separated by a comma and a space.  In
    general the report is the non-empty summaries, in their order, with one
    newline between two of them, and the fixed line when no summary is
    non-empty. *)
Theorem report_sections (payments : list Payment) (clk : Clock) (n : nat) :
  let delayed := FindPaymentsUntil payments (-1) (clk n) in
  let today := FindPaymentsAt payments 0 (clk (S n)) in
  let coming := fst (comingUp payments 2 clk (S (S n))) in
  let total := fst (totalPending payments 30 clk (snd (comingUp payments 2 clk (S (S n))))) in
  fst (report payments clk n)
  = ((match delayed with
      | [] => ""
      | _ :: _ => "⚠ Delayed: " ++ commaSeparated (map description delayed) ++ "
"
      end)
     ++ (match today with
         | [] => "😎 Nothing for today"
         | _ :: _ => "💸 Today: " ++ commaSeparated (map description today)
         end)
     ++ "
" ++ (match coming with
      | [] => "😎 Nothing coming up (next 2 days)"
      | _ :: _ => "⏳ Coming Up (next 2 days): " ++ commaSeparated (map description coming)
      end)
     ++ "
" ++ "💰 Total " ++ itoa total ++ " payments pending during the next 30 days")%string
  /\ (forall summaries,
        assemble summaries
        = match filter (fun s => negb (s =? "")%string) summaries with
          | [] => "🕶  Nothing to report"
          | s :: l => lineSeparated (s :: l)
          end)
  /\ (forall summaries,
        Forall (fun s => s = "") summaries -> assemble summaries = "🕶  Nothing to report").
Proof.
  cbv zeta. split; [|split].
  - rewrite report_eq, Join_newline.
    destruct (FindPaymentsUntil payments (-1) (clk n)) as [|p l].
    + cbn [spec_delayedLine app lineSeparated].
      unfold spec_todayLine, spec_comingUpLine, spec_totalLine.
      rewrite !Join_comma.
      destruct (FindPaymentsAt payments 0 (clk (S n)));
        destruct (fst (comingUp payments 2 clk (S (S n)))); reflexivity.
    + cbn [spec_delayedLine app lineSeparated].
      unfold spec_todayLine, spec_comingUpLine, spec_totalLine.
      rewrite !Join_comma, !append_assoc.
      destruct (FindPaymentsAt payments 0 (clk (S n)));
        destruct (fst (comingUp payments 2 clk (S (S n)))); reflexivity.
  - intros summaries. rewrite assemble_spec. fold nonEmpty.
    destruct (filter nonEmpty summaries) as [|s l]; [reflexivity|].
    unfold spec_report. apply Join_newline.
  - intros summaries H. rewrite assemble_spec. unfold nonEmpty.
    now rewrite (filter_empty summaries H).
Qed.

Lemma report_sections_witness :
  assemble [""; ""; ""; ""] = "🕶  Nothing to report"
  /\ fst (report [WithDueDate (NewPayment "gas") (day_ 2023 11 3);
                  WithDueDate (NewPayment "oil") (day_ 2023 11 4);
                  WithDueDate (NewPayment "water") (day_ 2023 11 5);
                  WithDueDate (NewPayment "phone") (day_ 2023 11 6);
                  WithDueDate (NewPayment "tax") (day_ 2023 11 7);
                  NewPayment "rent"]
                 (always (day_ 2023 11 5)) 0%nat)
     = "⚠ Delayed: gas, oil
💸 Today: water
⏳ Coming Up (next 2 days): phone, tax
💰 Total 6 payments pending during the next 30 days"
  /\ fst (report [] (always (day_ 2023 11 5)) 0%nat)
     = "😎 Nothing for today
😎 Nothing coming up (next 2 days)
💰 Total 0 payments pending during the next 30 days".
Proof.
  split; [|split].
  - apply (proj2 (proj2 (report_sections [] (always (day_ 2023 11 5)) 0%nat))).
    repeat constructor.
  - rewrite (proj1 (report_sections _ (always (day_ 2023 11 5)) 0%nat)).
    vm_compute. reflexivity.
  - rewrite (proj1 (report_sections [] (always (day_ 2023 11 5)) 0%nat)).
    vm_compute. reflexivity.
Defined.

(** C9.  The report of every list of payments, at every clock, has at
    least three sections (today, coming up and total are never empty), so
    that it contains a newline: it is neither the empty string nor the
    fixed line [nothingToReport], and the branch of [run] that supplies
    that line is never taken. *)
Theorem report_never_nothing (payments : list Payment) (clk : Clock) (n : nat) :
  fst (report payments clk n) <> ""
  /\ fst (report payments clk n) <> nothingToReport
  /\ 3 <= len (sectionsOf [fst (SummarizeDelayedPayments payments clk n);
                          fst (SummarizePaymentsForToday payments clk (S n));
                          fst (SummarizePaymentsComingUp payments 2 clk (S (S n)));
                          fst (SummarizeTotalPayments payments 30 clk
                                 (snd (comingUp payments 2 clk (S (S n)))))])
  /\ (forall sheets r, run sheets clk = Ok r -> r <> "" /\ r <> nothingToReport).
Proof.
  assert (H : forall ps k, fst (report ps clk k) <> ""
                           /\ fst (report ps clk k) <> nothingToReport).
  { intros ps k. pose proof (report_hasNewline ps clk k) as Hnl.
    split; intros Heq; rewrite Heq in Hnl; discriminate Hnl. }
  split; [apply H|]. split; [apply H|]. split.
  - rewrite sectionsOf_filter, SummarizeDelayedPayments_eq, SummarizePaymentsForToday_eq,
      SummarizePaymentsComingUp_eq, SummarizeTotalPayments_eq.
    cbn [fst filter].
    rewrite spec_todayLine_nonEmpty, spec_comingUpLine_nonEmpty, spec_totalLine_nonEmpty.
    destruct (nonEmpty _); unfold len; cbn [List.length]; lia.
  - intros sheets r Hrun. unfold run in Hrun.
    destruct (readSheets sheets []) as [ps| |]; try discriminate.
    injection Hrun as <-. apply H.
Qed.

Lemma report_never_nothing_witness :
  let clk := always (day_ 2023 11 5) in
  let sheets := [mkSheet "scheduled" [scheduledHeader; [S_ "gas"; S_ "2023-11-04"; S_ ""]]] in
  run sheets clk = Ok (Join ["⚠ Delayed: gas"; "😎 Nothing for today";
                             "😎 Nothing coming up (next 2 days)";
                             "💰 Total 1 payments pending during the next 30 days"] newline)
  /\ Join ["⚠ Delayed: gas"; "😎 Nothing for today";
           "😎 Nothing coming up (next 2 days)";
           "💰 Total 1 payments pending during the next 30 days"] newline <> nothingToReport.
Proof.
  intros clk sheets.
  assert (Hrun : run sheets clk
                 = Ok (Join ["⚠ Delayed: gas"; "😎 Nothing for today";
                             "😎 Nothing coming up (next 2 days)";
                             "💰 Total 1 payments pending during the next 30 days"] newline))
    by (vm_compute; reflexivity).
  split; [exact Hrun|].
  exact (proj2 (proj2 (proj2 (proj2 (report_never_nothing [] clk 0%nat))) sheets _ Hrun)).
Defined.

(** ** Further properties of ingestion *)

Module IngestionMore.
Import Classifier Ingestion.

Lemma index_in_range (row : Row) (i : Z) :
  0 <= i < len row -> exists v, index row i = Ok v.
Proof.
  intros H. unfold index, len in *.
  replace (i <? 0) with false by (symmetry; apply Z.ltb_ge; lia).
  destruct (nth_error row (Z.to_nat i)) as [v|] eqn:E; [eexists; reflexivity|].
  apply nth_error_None in E. lia.
Qed.

Lemma cellText_Some (row : Row) (i : Z) (s : string) :
  cellText row i = Some s <-> index row i = Ok (VString s).
Proof.
  unfold cellText. split.
  - destruct (index row i) as [[t| |]| |]; try discriminate. now intros [= ->].
  - now intros ->.
Qed.

(** The header loop over a header of texts computes the three last
    positions; a cell that is not a text makes it panic. *)
Lemma scanHeader_lastIndex (header : Row) :
  forall idx a b c,
    scanHeader header idx (a, b, c) =
    if forallb isText header
    then Ok (lastIndex "Description" header idx a,
             lastIndex "Due Date" header idx b,
             lastIndex "Payment Date" header idx c)
    else Panic.
Proof.
  induction header as [|v header IH]; intros idx a b c; [reflexivity|].
  cbn [scanHeader forallb lastIndex].
  destruct v as [s| |]; cbn [assertString isText andb]; try reflexivity.
  apply IH.
Qed.

Lemma lastIndex_absent (label : string) (header : Row) :
  forall idx default,
    ~ In (VString label) header -> lastIndex label header idx default = default.
Proof.
  induction header as [|v header IH]; intros idx default Hnot; [reflexivity|].
  cbn [lastIndex]. rewrite IH by (intros H; apply Hnot; right; exact H).
  destruct v as [s| |]; try reflexivity.
  destruct (String.eqb_spec s label) as [->|_]; [|reflexivity].
  exfalso. apply Hnot. left. reflexivity.
Qed.

Lemma lastIndex_range (label : string) (header : Row) :
  forall idx default,
    lastIndex label header idx default = default
    \/ idx <= lastIndex label header idx default < idx + len header.
Proof.
  induction header as [|v header IH]; intros idx default; [left; reflexivity|].
  cbn [lastIndex]. unfold len. cbn [List.length]. fold (len header).
  pose proof (len_nonneg header) as Hlen.
  match goal with |- context [lastIndex label header (idx + 1) ?d] =>
    destruct (IH (idx + 1) d) as [H|H] end.
  - rewrite H. destruct v as [s| |]; try (left; reflexivity).
    destruct (s =? label)%string; [right|left; reflexivity].
    unfold len in *. lia.
  - right. unfold len in *. lia.
Qed.

Lemma lastIndex_present (label : string) (header : Row) :
  forall idx default,
    In (VString label) header ->
    idx <= lastIndex label header idx default < idx + len header.
Proof.
  induction header as [|v header IH]; intros idx default Hin; [destruct Hin|].
  cbn [lastIndex]. unfold len. cbn [List.length]. fold (len header).
  pose proof (len_nonneg header) as Hlen.
  destruct Hin as [->|Hin].
  - rewrite String.eqb_refl.
    destruct (lastIndex_range label header (idx + 1) idx) as [H|H];
      unfold len in *; lia.
  - match goal with |- context [lastIndex label header (idx + 1) ?d] =>
      pose proof (IH (idx + 1) d Hin) end. unfold len in *. lia.
Qed.


Lemma lastIndex_app (label : string) (h1 h2 : Row) :
  forall idx default,
    lastIndex label (h1 ++ h2) idx default
    = lastIndex label h2 (idx + len h1) (lastIndex label h1 idx default).
Proof.
  induction h1 as [|v h1 IH]; intros idx default.
  - cbn. f_equal. unfold len. cbn. lia.
  - cbn [app lastIndex]. rewrite IH. f_equal. unfold len. cbn [List.length]. lia.
Qed.

Lemma lastIndex_last (label : string) (h1 h2 : Row) (idx default : Z) :
  ~ In (VString label) h2 ->
  lastIndex label (h1 ++ VString label :: h2) idx default = idx + len h1.
Proof.
  intros Hnot. rewrite lastIndex_app. cbn [lastIndex].
  rewrite String.eqb_refl. now apply lastIndex_absent.
Qed.

Lemma cellText_range (row : Row) (i : Z) (s : string) :
  cellText row i = Some s -> 0 <= i < len row.
Proof. intros H. apply cellText_Some in H. now apply index_Ok in H. Qed.

(** One turn of the row loop on a readable row appends what the row
    contributes. *)
Lemma readRow_readable (di du pi idx : Z) (row : Row) (acc : list Payment) (dd : string) :
  -1 <= du -> readable di du pi row = true ->
  exists dd', readRow di du pi idx row acc dd
              = Continue (acc ++ pendingOf di du pi row) dd'.
Proof.
  intros Hdu Hr. unfold readable, pendingOf in *.
  destruct (cellText row di) as [d|] eqn:Ed; [|discriminate].
  destruct (cellText row pi) as [p|] eqn:Ep; [|discriminate].
  pose proof (cellText_range _ _ _ Ed) as Hdi.
  pose proof (cellText_range _ _ _ Ep) as Hpi.
  apply cellText_Some in Ed, Ep. unfold readRow.
  replace (len row - 1 <? di) with false by (symmetry; apply Z.ltb_ge; lia).
  replace (len row - 1 <? pi) with false by (symmetry; apply Z.ltb_ge; lia).
  rewrite Ed, Ep. cbn [assertString].
  destruct (Z.eqb_spec du (-1)) as [->|Hne].
  - replace (len row - 1 <? -1) with false by (symmetry; apply Z.ltb_ge; lia).
    cbn. destruct (String.eqb_spec p "") as [->|Hp]; cbn [negb].
    + eexists. reflexivity.
    + destruct p; [contradiction|]. rewrite app_nil_r. eexists. reflexivity.
  - destruct (cellText row du) as [s|] eqn:Es; [|discriminate].
    pose proof (cellText_range _ _ _ Es) as Hdu'. apply cellText_Some in Es.
    replace (len row - 1 <? du) with false by (symmetry; apply Z.ltb_ge; lia).
    replace (0 <=? du) with true by (symmetry; apply Z.leb_le; lia).
    rewrite Es. cbn [assertString].
    destruct (String.eqb_spec p "") as [->|Hp]; cbn [negb orb] in *.
    + destruct (time.ParseDateOnly s); [eexists; reflexivity|discriminate].
    + destruct p; [contradiction|]. rewrite app_nil_r. eexists. reflexivity.
Qed.

(** A turn on a row that is not readable does not go on to the next
    row. *)
Lemma readRow_unreadable (di du pi idx : Z) (row : Row) (acc : list Payment) (dd : string) :
  0 <= di -> -1 <= du -> 0 <= pi -> readable di du pi row = false ->
  forall acc' dd', readRow di du pi idx row acc dd <> Continue acc' dd'.
Proof.
  intros Hdi Hdu Hpi Hr acc' dd' H. unfold readRow in H.
  destruct (Z.ltb_spec (len row - 1) di) as [|Hldi]; [discriminate|].
  destruct (Z.ltb_spec (len row - 1) du) as [|Hldu]; [discriminate|].
  destruct (Z.ltb_spec (len row - 1) pi) as [|Hlpi]; [discriminate|].
  unfold readable, cellText in Hr.
  destruct (index row di) as [[d| |]| |]; cbn [assertString] in H; try discriminate.
  destruct (Z.leb_spec 0 du) as [H0|H0].
  - replace (du =? -1) with false in * by (symmetry; apply Z.eqb_neq; lia).
    destruct (index row du) as [[s| |]| |]; cbn [assertString] in H; try discriminate.
    destruct (index row pi) as [[p| |]| |]; cbn [assertString] in H; try discriminate.
    destruct (negb (p =? "")%string); cbn [orb] in Hr; [discriminate|].
    destruct (time.ParseDateOnly s); discriminate.
  - assert (du = -1) as -> by lia. cbn [Z.eqb] in Hr.
    destruct (index row pi) as [[p| |]| |]; cbn [assertString] in H; discriminate.
Qed.

(** The row loop succeeds exactly when every row is readable, and then
    returns the payments of the rows in their order. *)
Lemma readRows_spec (di du pi : Z) :
  0 <= di -> -1 <= du -> 0 <= pi ->
  forall rows idx acc dd ps,
    readRows di du pi rows idx acc dd = Ok ps
    <-> forallb (readable di du pi) rows = true
        /\ ps = acc ++ flat_map (pendingOf di du pi) rows.
Proof.
  intros Hdi Hdu Hpi rows. induction rows as [|row rows IH]; intros idx acc dd ps.
  - cbn. rewrite app_nil_r. split; [intros [= <-]; auto|intros [_ ->]; reflexivity].
  - cbn [readRows forallb flat_map].
    destruct (readable di du pi row) eqn:Er.
    + destruct (readRow_readable di du pi idx row acc dd Hdu Er) as [dd' ->].
      rewrite IH, app_assoc. reflexivity.
    + pose proof (readRow_unreadable di du pi idx row acc dd Hdi Hdu Hpi Er) as Hno.
      split; [|intros [H _]; discriminate].
      destruct (readRow di du pi idx row acc dd) as [acc' dd'| |];
        try discriminate. exfalso. exact (Hno acc' dd' eq_refl).
Qed.

Lemma flat_map_length_le {A B : Type} (f : A -> list B) (l : list A) :
  (forall a, (List.length (f a) <= 1)%nat) ->
  (List.length (flat_map f l) <= List.length l)%nat.
Proof.
  intros Hf. induction l as [|a l IH]; cbn; [lia|].
  rewrite length_app. specialize (Hf a). lia.
Qed.

Lemma pendingOf_length (di du pi : Z) (row : Row) :
  (List.length (pendingOf di du pi row) <= 1)%nat.
Proof.
  unfold pendingOf.
  repeat match goal with
    | |- context [match ?x with _ => _ end] => destruct x
    end; cbn; lia.
Qed.

Lemma flat_map_Forall {A B : Type} (P : B -> Prop) (f : A -> list B) (l : list A) :
  (forall a, Forall P (f a)) -> Forall P (flat_map f l).
Proof.
  intros Hf. induction l as [|a l IH]; cbn; [constructor|].
  apply Forall_app. split; [apply Hf|exact IH].
Qed.

Lemma pendingOf_IsDue (di du pi : Z) (row : Row) :
  Forall (fun p => IsDue p = negb (du =? -1)) (pendingOf di du pi row).
Proof.
  unfold pendingOf.
  destruct (cellText row di) as [d|]; [|constructor].
  destruct (cellText row pi) as [[|c p]|]; try constructor.
  destruct (du =? -1).
  - constructor; [reflexivity|constructor].
  - destruct (cellText row du) as [s|]; [|constructor].
    destruct (time.ParseDateOnly s); constructor; [|constructor].
    apply IsDue_WithDueDate.
Qed.


Lemma scanHeader_indices (header : Row) (di du pi : Z) :
  scanHeader header 0 (-1, -1, -1) = Ok (di, du, pi) ->
  forallb isText header = true
  /\ di = lastIndex "Description" header 0 (-1)
  /\ du = lastIndex "Due Date" header 0 (-1)
  /\ pi = lastIndex "Payment Date" header 0 (-1).
Proof.
  rewrite scanHeader_lastIndex. destruct (forallb isText header); [|discriminate].
  intros [= <- <- <-]. auto.
Qed.

Lemma lastIndex_lower (label : string) (header : Row) :
  -1 <= lastIndex label header 0 (-1).
Proof.
  destruct (lastIndex_range label header 0 (-1)) as [->|H]; lia.
Qed.

(** What [readPayments] returns in terms of the readable rows. *)
Lemma readPayments_spec (header : Row) (data : list Row) (di du pi : Z)
    (ps : list Payment) :
  scanHeader header 0 (-1, -1, -1) = Ok (di, du, pi) -> di <> -1 -> pi <> -1 ->
  (readPayments (header :: data) = Ok ps
   <-> forallb (readable di du pi) data = true
       /\ ps = flat_map (pendingOf di du pi) data).
Proof.
  intros Hh Hdi Hpi. rewrite (readPayments_cons _ _ _ _ _ Hh).
  destruct (scanHeader_indices _ _ _ _ Hh) as (_ & Ed & Eu & Ep).
  pose proof (lastIndex_lower "Description" header).
  pose proof (lastIndex_lower "Due Date" header).
  pose proof (lastIndex_lower "Payment Date" header).
  replace (di =? -1) with false by (symmetry; apply Z.eqb_neq; lia).
  replace (pi =? -1) with false by (symmetry; apply Z.eqb_neq; lia).
  rewrite (readRows_spec di du pi) by lia. reflexivity.
Qed.

Lemma readPayments_Ok_indices (header : Row) (data : list Row) (ps : list Payment) :
  readPayments (header :: data) = Ok ps ->
  exists di du pi,
    scanHeader header 0 (-1, -1, -1) = Ok (di, du, pi) /\ di <> -1 /\ pi <> -1.
Proof.
  unfold readPayments.
  destruct (scanHeader header 0 (-1, -1, -1)) as [[[di du] pi]| |]; try discriminate.
  destruct (Z.eqb_spec di (-1)); [discriminate|].
  destruct (Z.eqb_spec pi (-1)); [discriminate|].
  intros _. exists di, du, pi. auto.
Qed.

Lemma comingUp_nil (payments : list Payment) (w : Z) (clk : Clock) (n : nat) :
  Forall (fun p => IsDue p = false) payments ->
  fst (comingUp payments w clk n) = [].
Proof.
  intros Hall. destruct (fst (comingUp payments w clk n)) as [|p l] eqn:E; [reflexivity|].
  assert (Hin : In p (fst (comingUp payments w clk n))) by (rewrite E; left; reflexivity).
  apply (comingUp_loop_In w clk p payments [] n) in Hin as [[]|[Hin Hd]].
  rewrite Forall_forall in Hall. rewrite (Hall p Hin) in Hd. discriminate.
Qed.

Lemma filter_nil {A : Type} (f : A -> bool) (l : list A) :
  Forall (fun a => f a = false) l -> filter f l = [].
Proof.
  induction 1 as [|a l Ha _ IH]; cbn; [reflexivity|]. now rewrite Ha.
Qed.

Lemma filter_all {A : Type} (f : A -> bool) (l : list A) :
  Forall (fun a => f a = true) l -> filter f l = l.
Proof.
  induction 1 as [|a l Ha _ IH]; cbn; [reflexivity|]. now rewrite Ha, IH.
Qed.

Lemma readSheets_cons (sheet : Sheet) (sheets : list Sheet) (acc : list Payment) :
  readSheets (sheet :: sheets) acc =
  match readSheet sheet with
  | Ok p => readSheets sheets (acc ++ p)
  | Err e => Err e
  | Panic => Panic
  end.
Proof.
  cbn [readSheets]. unfold readSheet.
  destruct (getSheet (Values sheet)) as [rows| |]; try reflexivity.
  destruct (readPayments rows); reflexivity.
Qed.

End IngestionMore.

Import IngestionMore.

(** X1.  A header of texts that lacks the label "Description" makes the
    ingestion return the description error, whatever the rows hold; one
    that has it and lacks "Payment Date" makes it return the payment-date
    error. *)
Theorem header_label_missing (header : Row) (data : list Row)
    (Htext : forallb isText header = true) :
  (~ In (VString "Description") header ->
   readPayments (header :: data) = Err ErrDescriptionHeader)
  /\ (In (VString "Description") header -> ~ In (VString "Payment Date") header ->
      readPayments (header :: data) = Err ErrPaymentDateHeader).
Proof.
  unfold readPayments. rewrite scanHeader_lastIndex, Htext. split.
  - intros Hd. now rewrite lastIndex_absent by exact Hd.
  - intros Hd Hp. rewrite (lastIndex_absent "Payment Date") by exact Hp.
    pose proof (lastIndex_present "Description" header 0 (-1) Hd).
    replace (_ =? -1) with false by (symmetry; apply Z.eqb_neq; lia).
    reflexivity.
Qed.

Lemma header_label_missing_witness :
  readPayments [[S_ "Due Date"; S_ "Payment Date"]; [S_ "2023-11-05"; S_ ""]]
  = Err ErrDescriptionHeader
  /\ readPayments [[S_ "Description"; S_ "Due Date"]; [S_ "rent"; S_ "2023-11-05"]]
     = Err ErrPaymentDateHeader.
Proof.
  split.
  - apply (proj1 (header_label_missing [S_ "Due Date"; S_ "Payment Date"]
                    [[S_ "2023-11-05"; S_ ""]] eq_refl)).
    cbn. intros [H|[H|[]]]; discriminate.
  - apply (proj2 (header_label_missing [S_ "Description"; S_ "Due Date"]
                    [[S_ "rent"; S_ "2023-11-05"]] eq_refl)).
    + left. reflexivity.
    + cbn. intros [H|[H|[]]]; discriminate.
Defined.

(** X2.  A header cell that is not a text makes the ingestion panic,
    wherever it stands in the header and whatever the other cells are. *)
Theorem header_cell_not_text_panics (header : Row) (data : list Row)
    (H : forallb isText header = false) :
  readPayments (header :: data) = Panic.
Proof. unfold readPayments. now rewrite scanHeader_lastIndex, H. Qed.

Lemma header_cell_not_text_panics_witness :
  readPayments [[S_ "Description"; S_ "Payment Date"; VBool true]; [S_ "rent"; S_ ""]]
  = Panic.
Proof.
  apply (header_cell_not_text_panics [S_ "Description"; S_ "Payment Date"; VBool true]).
  reflexivity.
Defined.

(** X3.  When a label stands in several cells of the header, the column
    of the last one is used: the index of a label is the position of its
    last occurrence. *)
Theorem header_last_label_wins (h1 h2 : Row) (label : string) (di du pi : Z)
    (Hlast : ~ In (VString label) h2)
    (Hh : scanHeader (h1 ++ VString label :: h2) 0 (-1, -1, -1) = Ok (di, du, pi)) :
  (label = "Description" -> di = len h1)
  /\ (label = "Due Date" -> du = len h1)
  /\ (label = "Payment Date" -> pi = len h1).
Proof.
  apply scanHeader_indices in Hh as (_ & -> & -> & ->).
  repeat split; intros ->; now rewrite lastIndex_last.
Qed.

Lemma header_last_label_wins_witness :
  scanHeader ([S_ "Description"; S_ "Payment Date"] ++ S_ "Description" :: [S_ "Due Date"])
    0 (-1, -1, -1) = Ok (2, 3, 1).
Proof.
  destruct (scanHeader ([S_ "Description"; S_ "Payment Date"]
                        ++ S_ "Description" :: [S_ "Due Date"]) 0 (-1, -1, -1))
    as [[[di du] pi]| |] eqn:E; try discriminate E.
  assert (Hnot : ~ In (VString "Description") [S_ "Due Date"]).
  { cbn. intros [H|[]]. discriminate. }
  pose proof (proj1 (header_last_label_wins [S_ "Description"; S_ "Payment Date"]
                       [S_ "Due Date"] "Description" di du pi Hnot E) eq_refl) as Hdi.
  injection E as <- <- <-. reflexivity.
Defined.

(** X4.  With both required columns resolved, the ingestion succeeds
    exactly when every data row is readable (its cells in the resolved
    columns are texts, and its due date parses unless the row is settled or
    the sheet has no due-date column), and then returns, in the order of the
    rows, one payment for every row whose payment-date cell is empty. *)
Theorem readPayments_succeeds_iff_readable (header : Row) (data : list Row)
    (di du pi : Z) (ps : list Payment)
    (Hh : scanHeader header 0 (-1, -1, -1) = Ok (di, du, pi))
    (Hdi : di <> -1) (Hpi : pi <> -1) :
  readPayments (header :: data) = Ok ps
  <-> forallb (readable di du pi) data = true
      /\ ps = flat_map (pendingOf di du pi) data.
Proof.
  rewrite (readPayments_cons _ _ _ _ _ Hh).
  destruct (scanHeader_indices _ _ _ _ Hh) as (_ & Ed & Eu & Ep).
  pose proof (lastIndex_lower "Description" header).
  pose proof (lastIndex_lower "Due Date" header).
  pose proof (lastIndex_lower "Payment Date" header).
  replace (di =? -1) with false by (symmetry; apply Z.eqb_neq; lia).
  replace (pi =? -1) with false by (symmetry; apply Z.eqb_neq; lia).
  rewrite (readRows_spec di du pi) by lia. reflexivity.
Qed.

Lemma readPayments_succeeds_iff_readable_witness :
  let data := [[S_ "gas"; S_ "2023-11-04"; S_ ""];
               [S_ "rent"; S_ "not-a-date"; S_ "2023-11-01"];
               [S_ "water"; S_ "2023-11-06"; S_ ""]] in
  readPayments (scheduledHeader :: data)
  = Ok [WithDueDate (NewPayment "gas") (day_ 2023 11 4);
        WithDueDate (NewPayment "water") (day_ 2023 11 6)].
Proof.
  intros data.
  apply (proj2 (readPayments_succeeds_iff_readable scheduledHeader data 0 1 2 _
                  eq_refl ltac:(discriminate) ltac:(discriminate))).
  split; reflexivity.
Defined.

(** X5.  A successful ingestion returns at most one payment per data
    row. *)
Theorem readPayments_at_most_one_per_row (rows : list Row) (ps : list Payment)
    (H : readPayments rows = Ok ps) :
  len ps <= len rows - 1.
Proof.
  destruct rows as [|header data]; [discriminate|].
  assert (Hx := readPayments_Ok_indices _ _ _ H).
  destruct Hx as (di & du & pi & Hh & Hdi & Hpi).
  pose proof (proj1 (readPayments_spec header data di du pi ps Hh Hdi Hpi) H) as [_ Hps].
  rewrite Hps. unfold len. cbn [List.length].
  pose proof (flat_map_length_le (pendingOf di du pi) data (pendingOf_length di du pi)).
  lia.
Qed.

Lemma readPayments_at_most_one_per_row_witness :
  len [WithDueDate (NewPayment "gas") (day_ 2023 11 4)] <= len [scheduledHeader; [S_ "gas"; S_ "2023-11-04"; S_ ""]; [S_ "rent"; S_ ""; S_ "2023-11-01"]] - 1.
Proof.
  apply (readPayments_at_most_one_per_row
           [scheduledHeader; [S_ "gas"; S_ "2023-11-04"; S_ ""];
            [S_ "rent"; S_ ""; S_ "2023-11-01"]]).
  reflexivity.
Defined.

(** X6.  The payments ingested from a sheet whose header has no "Due
    Date" label are all without due date: they are in no bucket of
    [FindPaymentsAt], [FindPaymentsUntil] or the coming-up loop, and with a
    clock that shows instants since 1970 and a window of at least [minDiff]
    days the total counts every one of them. *)
Theorem recurring_sheet_only_in_total (header : Row) (data : list Row) (ps : list Payment)
    (Hcol : ~ In (VString "Due Date") header)
    (H : readPayments (header :: data) = Ok ps) :
  Forall (fun p => IsDue p = false) ps
  /\ (forall diff now, FindPaymentsAt ps diff now = [] /\ FindPaymentsUntil ps diff now = [])
  /\ (forall window clk n, fst (comingUp ps window clk n) = [])
  /\ (forall window clk n,
        (forall k, time.unixToInternal <= time.sec (clk k)) -> minDiff <= window ->
        fst (totalPending ps window clk n) = len ps).
Proof.
  assert (Hx := readPayments_Ok_indices _ _ _ H).
  destruct Hx as (di & du & pi & Hh & Hdi & Hpi).
  pose proof (scanHeader_due_absent header 0 (-1) (-1) (-1) di du pi Hh Hcol) as Hdu.
  rewrite Hdu in Hh. clear Hdu du.
  pose proof (proj1 (readPayments_spec header data di (-1) pi ps Hh Hdi Hpi) H) as [_ Hps].
  rewrite Hps. clear Hps.
  assert (Hall : Forall (fun p => IsDue p = false) (flat_map (pendingOf di (-1) pi) data)).
  { apply flat_map_Forall. intros row. exact (pendingOf_IsDue di (-1) pi row). }
  split; [exact Hall|]. split; [|split].
  - intros diff now. rewrite FindPaymentsAt_filter, FindPaymentsUntil_filter.
    split; apply filter_nil; eapply Forall_impl; try exact Hall;
      intros p Hp; unfold due_at, due_until; now rewrite Hp.
  - intros window clk n. now apply comingUp_nil.
  - intros window clk n Hclk Hw. rewrite totalPending_eq. cbn [fst].
    rewrite filter_all.
    + unfold turns, len. rewrite length_combine, length_seq. lia.
    + apply Forall_forall. intros [k p] Hin. unfold pending_at. cbn [fst snd].
      assert (Hp : In p (flat_map (pendingOf di (-1) pi) data)).
      { rewrite <- (turns_snd (flat_map (pendingOf di (-1) pi) data) n).
        apply in_map_iff. exists (k, p). auto. }
      rewrite Forall_forall in Hall. apply Hall in Hp. apply IsDue_false in Hp.
      destruct p as [d t]. cbn in Hp. subst t.
      change (mkPayment d time.zero) with (NewPayment d).
      rewrite DiffFromNowInDays_NewPayment by apply Hclk.
      apply Z.leb_le. exact Hw.
Qed.

Lemma recurring_sheet_only_in_total_witness :
  let rows := [[S_ "Description"; S_ "Payment Date"];
               [S_ "rent"; S_ ""]; [S_ "gym"; S_ "2023-11-01"]; [S_ "phone"; S_ ""]] in
  let ps := [NewPayment "rent"; NewPayment "phone"] in
  readPayments rows = Ok ps
  /\ FindPaymentsUntil ps (-1) (day_ 2023 11 5) = []
  /\ fst (totalPending ps 30 (always (day_ 2023 11 5)) 0%nat) = 2.
Proof.
  intros rows ps.
  assert (H : readPayments rows = Ok ps) by reflexivity.
  assert (Hcol : ~ In (VString "Due Date") [S_ "Description"; S_ "Payment Date"]).
  { cbn. intros [E|[E|[]]]; discriminate. }
  destruct (recurring_sheet_only_in_total _ _ _ Hcol H) as (_ & Hb & _ & Ht).
  split; [exact H|]. split; [apply Hb|].
  apply Ht; [intros k; vm_compute; discriminate | vm_compute; discriminate].
Defined.

Module ServiceFacts.
Import Service.

Lemma readSheets_reads (sheet : Sheet) (ps : list Payment) (sheets : list Sheet)
    (acc : list Payment) :
  reads sheet ps ->
  readSheets (sheet :: sheets) acc
  = (fetchOf sheet :: fst (readSheets sheets (acc ++ ps)),
     snd (readSheets sheets (acc ++ ps))).
Proof.
  intros (rows & Hv & Hlen & Hr). cbn [readSheets]. rewrite Hv. unfold getSheet.
  replace (len rows <=? 1) with false by (symmetry; apply Z.leb_gt; lia).
  rewrite Hr. now destruct (readSheets sheets (acc ++ ps)).
Qed.

Lemma readSheets_all (sheets : list Sheet) (pss : list (list Payment)) :
  Forall2 reads sheets pss ->
  forall acc, readSheets sheets acc = (map fetchOf sheets, inl (acc ++ List.concat pss)).
Proof.
  induction 1 as [|sheet ps sheets pss Hs _ IH]; intros acc.
  - cbn. now rewrite app_nil_r.
  - rewrite (readSheets_reads sheet ps) by exact Hs. rewrite IH. cbn.
    now rewrite app_assoc.
Qed.

Lemma readSheets_inl (sheets : list Sheet) :
  forall acc fetches ps,
    readSheets sheets acc = (fetches, inl ps) ->
    exists pss, Forall2 reads sheets pss /\ ps = acc ++ List.concat pss.
Proof.
  induction sheets as [|sheet sheets IH]; intros acc fetches ps H.
  - cbn in H. injection H as _ <-. exists []. split; [constructor|]. now rewrite app_nil_r.
  - cbn [readSheets] in H. destruct (Values sheet) as [rows|err] eqn:Hv; [|discriminate].
    unfold getSheet in H. destruct (Z.leb_spec (len rows) 1); [discriminate|].
    destruct (readPayments rows) as [p| |] eqn:Hr; try discriminate.
    destruct (readSheets sheets (acc ++ p)) as [events r] eqn:E.
    injection H as _ ->. apply IH in E as (pss & HF & ->).
    exists (p :: pss). split.
    + constructor; [|exact HF]. exists rows. auto.
    + cbn. now rewrite app_assoc.
Qed.

Lemma readSheets_inr (sheets : list Sheet) :
  forall acc fetches o,
    readSheets sheets acc = (fetches, inr o) -> o <> Returned None.
Proof.
  induction sheets as [|sheet sheets IH]; intros acc fetches o H; [discriminate|].
  cbn [readSheets] in H. destruct (getSheet (Values sheet)) as [rows|err].
  - destruct (readPayments rows) as [p| |].
    + destruct (readSheets sheets (acc ++ p)) as [events r] eqn:E.
      injection H as _ ->. exact (IH _ _ _ E).
    + injection H as _ <-. discriminate.
    + injection H as _ <-. discriminate.
  - injection H as _ <-. discriminate.
Qed.

Lemma readSheets_prefix (pre : list Sheet) (pss : list (list Payment)) (rest : list Sheet) :
  Forall2 reads pre pss ->
  forall acc,
    readSheets (pre ++ rest) acc
    = (map fetchOf pre ++ fst (readSheets rest (acc ++ List.concat pss)),
       snd (readSheets rest (acc ++ List.concat pss))).
Proof.
  induction 1 as [|sheet ps pre pss Hs _ IH]; intros acc.
  - cbn. rewrite app_nil_r. now destruct (readSheets rest acc).
  - cbn [app]. rewrite (readSheets_reads sheet ps) by exact Hs. rewrite IH. cbn.
    now rewrite app_assoc.
Qed.

Lemma Forall_reads (pre : list Sheet) :
  Forall (fun s => exists ps, reads s ps) pre -> exists pss, Forall2 reads pre pss.
Proof.
  induction 1 as [|s pre [ps Hs] _ [pss IH]].
  - exists []. constructor.
  - exists (ps :: pss). now constructor.
Qed.

(** A run whose sheet loop ends early ends the same way, after the
    fetches of the loop and nothing else. *)
Lemma run_stopped (w : World) (config : Config) (print : bool) (clk : Clock)
    (fetches : list event) (o : outcome) :
  (exists u, NewService w = Answer u) ->
  readSheets (Sheets config) [] = (fetches, inr o) ->
  run w config print clk = (fetches, o).
Proof. intros [u Hu] H. unfold run. now rewrite Hu, H. Qed.

Lemma SendNotification_request (w : World) (topic message : string) (u : unit) :
  NewRequest w "POST" ("https://ntfy.sh/" ++ topic)%string = Answer u ->
  SendNotification w topic "Payment Report" message ""
  = ([Send (notification topic message)],
     match Do w (notification topic message) with
     | Failure err => Some (SendRequestError err)
     | Answer status => if status =? 200 then None else Some (StatusError status)
     end).
Proof.
  intros H. unfold SendNotification. rewrite H.
  change (HeaderSet "Tags" "" (HeaderSet "Title" "Payment Report"
            (mkRequest "POST" ("https://ntfy.sh/" ++ topic) [] message)))
    with (notification topic message).
  destruct (Do w (notification topic message)) as [status|err]; [|reflexivity].
  unfold StatusOK. now destruct (status =? 200).
Qed.

End ServiceFacts.

Import ServiceFacts.

(** X7.  The first sheet that cannot be fetched or read ends the run: the
    run returns the error of that sheet, which names it, or panics where
    reading it panics.  Up to then the run has fetched the sheets before it
    and the sheet itself and has done nothing else: the sheets after it are
    not fetched, nothing is printed and no notification is sent.  The error
    is that of the fetch when the fetch fails, ["no data found"] when the
    fetch brings at most one row, and that of [readPayments] otherwise. *)
Theorem run_aborts_on_first_failure (w : Service.World) (topic : string)
    (pre post : list Service.Sheet) (sheet : Service.Sheet) (print : bool) (clk : Clock)
    (Hclient : exists u, Service.NewService w = Service.Answer u)
    (Hpre : Forall (fun s => exists ps, Service.reads s ps) pre) :
  let r := Service.run w (Service.mkConfig topic (pre ++ sheet :: post)) print clk in
  let fetches := map Service.fetchOf (pre ++ [sheet]) in
  let name := Service.Name sheet in
  (forall err,
      Service.Values sheet = Service.Failure err ->
      r = (fetches,
           Service.Returned (Some (Service.ReadSheetError name (Service.GetError err)))))
  /\ (forall rows,
        Service.Values sheet = Service.Answer rows -> len rows <= 1 ->
        r = (fetches, Service.Returned (Some (Service.ReadSheetError name Service.NoDataFound))))
  /\ (forall rows e,
        Service.Values sheet = Service.Answer rows -> 1 < len rows ->
        readPayments rows = Err e ->
        r = (fetches, Service.Returned (Some (Service.ReadPaymentsError name e))))
  /\ (forall rows,
        Service.Values sheet = Service.Answer rows -> 1 < len rows ->
        readPayments rows = Panic ->
        r = (fetches, Service.Panicked)).
Proof.
  cbv zeta. destruct (Forall_reads pre Hpre) as [pss Hpss].
  assert (Hrun : forall o,
             Service.readSheets (sheet :: post) ([] ++ List.concat pss)
             = ([Service.fetchOf sheet], inr o) ->
             Service.run w (Service.mkConfig topic (pre ++ sheet :: post)) print clk
             = (map Service.fetchOf (pre ++ [sheet]), o)).
  { intros o Ho. apply run_stopped; [exact Hclient|]. cbn [Service.Sheets].
    rewrite (readSheets_prefix pre pss (sheet :: post) Hpss), Ho. cbn [fst snd].
    now rewrite map_app. }
  repeat split.
  - intros err Hv. apply Hrun. cbn [Service.readSheets]. now rewrite Hv.
  - intros rows Hv Hlen. apply Hrun. cbn [Service.readSheets]. rewrite Hv.
    unfold Service.getSheet.
    now replace (len rows <=? 1) with true by (symmetry; apply Z.leb_le; lia).
  - intros rows e Hv Hlen Hr. apply Hrun. cbn [Service.readSheets]. rewrite Hv.
    unfold Service.getSheet.
    replace (len rows <=? 1) with false by (symmetry; apply Z.leb_gt; lia).
    now rewrite Hr.
  - intros rows Hv Hlen Hr. apply Hrun. cbn [Service.readSheets]. rewrite Hv.
    unfold Service.getSheet.
    replace (len rows <=? 1) with false by (symmetry; apply Z.leb_gt; lia).
    now rewrite Hr.
Qed.

Lemma run_aborts_on_first_failure_witness :
  let w := Service.mkWorld (Service.Answer tt) (fun _ _ => Service.Answer tt)
                           (fun _ => Service.Answer 200) in
  let good := Service.mkSheet "id1" "scheduled"
                (Service.Answer [scheduledHeader; [S_ "gas"; S_ "2023-11-04"; S_ ""]]) in
  let down := Service.mkSheet "id2" "recurring" (Service.Failure "googleapi: Error 503") in
  let bare := Service.mkSheet "id2" "recurring"
                (Service.Answer [[S_ "Description"; S_ "Payment Date"]]) in
  Service.run w (Service.mkConfig "bills" ([good] ++ down :: [good])) true
              (always (day_ 2023 11 5))
  = ([Service.Fetch "id1" "scheduled"; Service.Fetch "id2" "recurring"],
     Service.Returned (Some (Service.ReadSheetError "recurring"
                               (Service.GetError "googleapi: Error 503"))))
  /\ Service.run w (Service.mkConfig "bills" ([good] ++ bare :: [good])) true
                 (always (day_ 2023 11 5))
     = ([Service.Fetch "id1" "scheduled"; Service.Fetch "id2" "recurring"],
        Service.Returned (Some (Service.ReadSheetError "recurring" Service.NoDataFound))).
Proof.
  intros w good down bare.
  assert (Hclient : exists u, Service.NewService w = Service.Answer u)
    by (exists tt; reflexivity).
  assert (Hpre : Forall (fun s => exists ps, Service.reads s ps) [good]).
  { repeat constructor. eexists. eexists. split; [reflexivity|]. split; reflexivity. }
  split.
  - apply (proj1 (run_aborts_on_first_failure w "bills" [good] [good] down true
                    (always (day_ 2023 11 5)) Hclient Hpre)).
    reflexivity.
  - apply (proj1 (proj2 (run_aborts_on_first_failure w "bills" [good] [good] bare true
                           (always (day_ 2023 11 5)) Hclient Hpre))
             [[S_ "Description"; S_ "Payment Date"]]).
    + reflexivity.
    + vm_compute. discriminate.
Defined.

(** ** Further properties of classification *)

Module ClassifierMore.

Lemma filter_implies_subsequence {A : Type} (f g : A -> bool) (l : list A) :
  (forall a, f a = true -> g a = true) ->
  subsequence (filter f l) (filter g l).
Proof.
  intros Hfg. induction l as [|a l IH]; cbn; [constructor|].
  destruct (f a) eqn:Ef.
  - rewrite (Hfg a Ef). now constructor.
  - destruct (g a); [constructor|]; exact IH.
Qed.

Lemma filter_partition3 {A : Type} (k f g h : A -> bool) (l : list A) :
  (forall a, k a = f a || g a || h a) ->
  (forall a, f a && g a = false) -> (forall a, f a && h a = false) ->
  (forall a, g a && h a = false) ->
  len (filter k l) = len (filter f l) + len (filter g l) + len (filter h l).
Proof.
  intros Hk Hfg Hfh Hgh. unfold len.
  induction l as [|a l IH]; [reflexivity|]. cbn [filter].
  rewrite (Hk a). specialize (Hfg a). specialize (Hfh a). specialize (Hgh a).
  destruct (f a), (g a), (h a); cbn [orb andb] in *; try discriminate;
    cbn [List.length]; lia.
Qed.

Lemma filter_partition2 {A : Type} (k f g : A -> bool) (l : list A) :
  (forall a, k a = f a || g a) -> (forall a, f a && g a = false) ->
  len (filter k l) = len (filter f l) + len (filter g l).
Proof.
  intros Hk Hfg. unfold len.
  induction l as [|a l IH]; [reflexivity|]. cbn [filter].
  rewrite (Hk a). specialize (Hfg a).
  destruct (f a), (g a); cbn [orb andb] in *; try discriminate;
    cbn [List.length]; lia.
Qed.

(** The coming-up loop in front of a clock that stands still, and the
    clock reads it makes in front of any clock. *)
Lemma comingUp_loop_always (w : Z) (now : time.Time) :
  forall ps acc n,
    fst (forRange
           (fun found p =>
              if negb (IsDue p) then ret found
              else
                t <- Now ;;
                let d := DiffFromNowInDays p t in
                if (1 <=? d) && (d <=? w) then ret (found ++ [p])
                else ret found) ps acc (always now) n)
    = acc ++ filter (coming_up w now) ps.
Proof.
  induction ps as [|p ps IH]; intros acc n.
  - cbn. now rewrite app_nil_r.
  - cbn [forRange filter]. unfold bind at 1. unfold coming_up at 1.
    destruct (IsDue p); cbn [negb andb].
    + unfold bind at 1, Now. unfold always at 1 2.
      destruct ((1 <=? DiffFromNowInDays p now) && (DiffFromNowInDays p now <=? w));
        unfold ret at 1; rewrite IH; [now rewrite <- app_assoc|reflexivity].
    + unfold ret at 1. apply IH.
Qed.

Lemma comingUp_always (ps : list Payment) (w : Z) (now : time.Time) (n : nat) :
  fst (comingUp ps w (always now) n) = filter (coming_up w now) ps.
Proof. unfold comingUp. now rewrite comingUp_loop_always. Qed.

Lemma comingUp_loop_reads (w : Z) (clk : Clock) :
  forall ps acc n,
    snd (forRange
           (fun found p =>
              if negb (IsDue p) then ret found
              else
                t <- Now ;;
                let d := DiffFromNowInDays p t in
                if (1 <=? d) && (d <=? w) then ret (found ++ [p])
                else ret found) ps acc clk n)
    = (n + List.length (filter IsDue ps))%nat.
Proof.
  induction ps as [|p ps IH]; intros acc n.
  - cbn. lia.
  - cbn [forRange filter]. unfold bind at 1.
    destruct (IsDue p); cbn [negb].
    + unfold bind at 1, Now.
      destruct ((1 <=? DiffFromNowInDays p (clk n)) && (DiffFromNowInDays p (clk n) <=? w));
        unfold ret at 1; rewrite IH; cbn [List.length]; lia.
    + unfold ret at 1. apply IH.
Qed.

Lemma totalPending_always (ps : list Payment) (w : Z) (now : time.Time) (n : nat) :
  fst (totalPending ps w (always now) n)
  = len (filter (fun p => DiffFromNowInDays p now <=? w) ps).
Proof.
  rewrite totalPending_eq. cbn [fst]. unfold turns, len. f_equal.
  generalize n. induction ps as [|p ps IH]; intros k; [reflexivity|].
  cbn [List.length seq combine filter]. unfold pending_at at 1. cbn [fst snd].
  unfold always at 1. destruct (DiffFromNowInDays p now <=? w); cbn [List.length];
    now rewrite IH.
Qed.

Lemma Sub_self (t : time.Time) : time.Sub t t = 0.
Proof.
  unfold time.Sub. cbv zeta.
  replace ((time.sec t - time.sec t) * time.Second + (time.nsec t - time.nsec t)) with 0
    by lia.
  reflexivity.
Qed.

Lemma ToDate_same_day (t u : time.Time) :
  time.date (time.In t GreekTimeZone) = time.date (time.In u GreekTimeZone) ->
  ToDate (time.In t GreekTimeZone) = ToDate (time.In u GreekTimeZone).
Proof.
  intros H. unfold ToDate, time.Year, time.Month, time.Day. now rewrite H.
Qed.

Lemma DiffFromNowInDays_upper (p : Payment) (now : time.Time) :
  DiffFromNowInDays p now <= - minDiff.
Proof.
  rewrite DiffFromNowInDays_quot.
  pose proof (Sub_range (due p) (ToDate (time.In now GreekTimeZone))) as [_ Hhi].
  change (- minDiff) with (Z.quot time.maxDuration (24 * time.Hour)).
  apply Z.quot_le_mono; [reflexivity | exact Hhi].
Qed.

(** [ToDate] in terms of the day on the calendar of Athens. *)
Lemma ToDate_localDay (t : time.Time) :
  exists o, (o = 7200 \/ o = 10800) /\
    ToDate (time.In t GreekTimeZone)
    = time.mkTime (localDay t * time.secondsPerDay - o) 0 time.EuropeAthens.
Proof.
  unfold ToDate, time.Year, time.Month, time.Day, time.date, localDay.
  pose proof (Date_midnight_Athens
                (time.abs (time.In t GreekTimeZone) / time.secondsPerDay)) as Hd.
  destruct (time.absDate (time.abs (time.In t GreekTimeZone) / time.secondsPerDay))
    as [[y m] d].
  destruct Hd as (o & Ho & Heq). exists o. split; [exact Ho|exact Heq].
Qed.

(** The day difference of a date-scheduled payment from the seconds
    between the two midnights. *)
Lemma DiffFromNowInDays_days (p : Payment) (t now : time.Time) :
  minDiff < localDay t - localDay now < - minDiff ->
  exists e, (e = -3600 \/ e = 0 \/ e = 3600) /\
    DiffFromNowInDays (WithDueDate p t) now
    = Z.quot ((localDay t - localDay now) * 86400 + e) 86400.
Proof.
  intros Hk. rewrite DiffFromNowInDays_quot. unfold WithDueDate. cbn [due].
  destruct (ToDate_localDay t) as (o & Ho & ->).
  destruct (ToDate_localDay now) as (o' & Ho' & ->).
  exists (o' - o). split; [lia|].
  unfold time.Sub. cbn [time.sec time.nsec].
  unfold time.secondsPerDay, minDiff in *.
  set (k := localDay t - localDay now) in *.
  replace (localDay t * 86400 - o - (localDay now * 86400 - o')) with (k * 86400 + (o' - o))
    by (subst k; lia).
  replace ((time.minDuration <=? _) && _) with true.
  - unfold time.Hour, time.Minute, time.Second.
    replace ((k * 86400 + (o' - o)) * 1000000000 + (0 - 0))
      with ((k * 86400 + (o' - o)) * 1000000000) by lia.
    change (24 * (60 * (60 * 1000000000))) with (86400 * 1000000000).
    apply Z.quot_mul_cancel_r; lia.
  - symmetry. apply andb_true_iff.
    unfold time.minDuration, time.maxDuration, time.Second.
    split; apply Z.leb_le; lia.
Qed.

End ClassifierMore.

Import ClassifierMore.

(** X8.  [FindPaymentsAt] and [FindPaymentsUntil] work payment by
    payment: on the payments of two sheets one after the other they return
    what they return on the first followed by what they return on the
    second. *)
Theorem FindPayments_app (ps qs : list Payment) (diff : Z) (now : time.Time) :
  FindPaymentsAt (ps ++ qs) diff now
  = FindPaymentsAt ps diff now ++ FindPaymentsAt qs diff now
  /\ FindPaymentsUntil (ps ++ qs) diff now
     = FindPaymentsUntil ps diff now ++ FindPaymentsUntil qs diff now.
Proof.
  rewrite !FindPaymentsAt_filter, !FindPaymentsUntil_filter.
  split; apply filter_app.
Qed.

(** X9.  [FindPaymentsUntil] grows with its bound, and contains what
    [FindPaymentsAt] finds at the bound: the smaller result is a
    subsequence of the larger. *)
Theorem FindPaymentsUntil_monotone (ps : list Payment) (m1 m2 : Z) (now : time.Time)
    (Hm : m1 <= m2) :
  subsequence (FindPaymentsUntil ps m1 now) (FindPaymentsUntil ps m2 now)
  /\ subsequence (FindPaymentsAt ps m1 now) (FindPaymentsUntil ps m2 now).
Proof.
  rewrite FindPaymentsAt_filter, !FindPaymentsUntil_filter.
  split; apply filter_implies_subsequence; intros p; unfold due_at, due_until;
    rewrite !andb_true_iff; intros [Hd Hc]; (split; [exact Hd|]).
  - apply Z.leb_le in Hc. apply Z.leb_le. lia.
  - apply Z.eqb_eq in Hc. apply Z.leb_le. lia.
Qed.

Lemma FindPaymentsUntil_monotone_witness :
  let ps := [WithDueDate (NewPayment "gas") (day_ 2023 11 4);
             WithDueDate (NewPayment "water") (day_ 2023 11 5)] in
  -1 <= 0
  /\ subsequence (FindPaymentsUntil ps (-1) (day_ 2023 11 5))
                 (FindPaymentsUntil ps 0 (day_ 2023 11 5)).
Proof.
  intros ps. assert (H : -1 <= 0) by discriminate.
  split; [exact H|].
  exact (proj1 (FindPaymentsUntil_monotone ps (-1) 0 (day_ 2023 11 5) H)).
Defined.

(** X10.  In front of a clock that stands still, the coming-up loop is
    the stable filter of the date-scheduled payments whose day difference
    lies in 1..window; it finds nothing when the window is below 1, and in
    front of any clock it reads the clock once per date-scheduled
    payment. *)
Theorem comingUp_filter (ps : list Payment) (window : Z) (now : time.Time)
    (clk : Clock) (n : nat) :
  fst (comingUp ps window (always now) n) = filter (coming_up window now) ps
  /\ (window < 1 -> fst (comingUp ps window (always now) n) = [])
  /\ snd (comingUp ps window clk n) = (n + List.length (filter IsDue ps))%nat.
Proof.
  split; [apply comingUp_always|]. split.
  - intros Hw. rewrite comingUp_always. apply IngestionMore.filter_nil.
    apply Forall_forall. intros p _. unfold coming_up.
    destruct (IsDue p); [|reflexivity]. cbn [andb].
    destruct (Z.leb_spec 1 (DiffFromNowInDays p now)); [|reflexivity].
    cbn [andb]. apply Z.leb_gt. lia.
  - unfold comingUp. apply comingUp_loop_reads.
Qed.

Lemma comingUp_filter_witness :
  let ps := [WithDueDate (NewPayment "gas") (day_ 2023 11 6)] in
  0 < 1 /\ fst (comingUp ps 0 (always (day_ 2023 11 5)) 0%nat) = [].
Proof.
  intros ps. assert (H : 0 < 1) by reflexivity. split; [exact H|].
  exact (proj1 (proj2 (comingUp_filter ps 0 (day_ 2023 11 5) (always (day_ 2023 11 5))
                         0%nat)) H).
Defined.

(** X11.  In front of a clock that stands still and for a window of at
    least 0 days, the payments found until the window are, by count, the
    delayed ones, those of today and those coming up, and no payment is in
    two of the three buckets. *)
Theorem buckets_partition (ps : list Payment) (window : Z) (now : time.Time) (n : nat)
    (Hw : 0 <= window) :
  len (FindPaymentsUntil ps window now)
  = len (FindPaymentsUntil ps (-1) now) + len (FindPaymentsAt ps 0 now)
    + len (fst (comingUp ps window (always now) n))
  /\ (forall p, In p (FindPaymentsUntil ps (-1) now) -> ~ In p (FindPaymentsAt ps 0 now))
  /\ (forall p, In p (FindPaymentsUntil ps (-1) now) ->
                ~ In p (fst (comingUp ps window (always now) n)))
  /\ (forall p, In p (FindPaymentsAt ps 0 now) ->
                ~ In p (fst (comingUp ps window (always now) n))).
Proof.
  rewrite comingUp_always, FindPaymentsAt_filter, !FindPaymentsUntil_filter.
  split; [|repeat split; intros p H1 H2; apply filter_In in H1 as [_ H1];
           apply filter_In in H2 as [_ H2]; unfold due_until, due_at, coming_up in *;
           destruct (IsDue p); cbn [andb] in *; try discriminate;
           rewrite ?andb_true_iff, ?Z.leb_le, ?Z.eqb_eq in *; lia].
  apply filter_partition3; intros p; unfold due_until, due_at, coming_up;
    destruct (IsDue p); cbn [andb orb]; try reflexivity;
    destruct (Z.leb_spec (DiffFromNowInDays p now) window);
    destruct (Z.leb_spec (DiffFromNowInDays p now) (-1));
    destruct (Z.eqb_spec (DiffFromNowInDays p now) 0);
    destruct (Z.leb_spec 1 (DiffFromNowInDays p now)); cbn; try reflexivity; lia.
Qed.

Lemma buckets_partition_witness :
  let ps := [WithDueDate (NewPayment "gas") (day_ 2023 11 4);
             WithDueDate (NewPayment "water") (day_ 2023 11 5);
             WithDueDate (NewPayment "phone") (day_ 2023 11 6); rent] in
  let now := day_ 2023 11 5 in
  0 <= 2
  /\ len (FindPaymentsUntil ps 2 now)
     = len (FindPaymentsUntil ps (-1) now) + len (FindPaymentsAt ps 0 now)
       + len (fst (comingUp ps 2 (always now) 0%nat)).
Proof.
  intros ps now. assert (H : 0 <= 2) by discriminate. split; [exact H|].
  exact (proj1 (buckets_partition ps 2 now 0%nat H)).
Defined.

(** X12.  In front of a clock that stands still at an instant since 1970
    and for a window of at least [minDiff] days, the total is the number
    of date-scheduled payments due until the window plus the number of all
    payments without due date. *)
Theorem total_is_scheduled_plus_not_due (ps : list Payment) (window : Z)
    (now : time.Time) (n : nat)
    (Hnow : time.unixToInternal <= time.sec now) (Hw : minDiff <= window) :
  fst (totalPending ps window (always now) n)
  = len (FindPaymentsUntil ps window now) + len (filter (fun p => negb (IsDue p)) ps).
Proof.
  rewrite totalPending_always, FindPaymentsUntil_filter.
  apply filter_partition2; intros p; unfold due_until.
  - destruct (IsDue p) eqn:Ed; cbn [andb negb orb]; [now rewrite orb_false_r|].
    apply IsDue_false in Ed. destruct p as [d t]. cbn in Ed. subst t.
    change (mkPayment d time.zero) with (NewPayment d).
    rewrite (DiffFromNowInDays_NewPayment d now Hnow). apply Z.leb_le. exact Hw.
  - destruct (IsDue p); cbn [andb negb]; [apply andb_false_r|reflexivity].
Qed.

Lemma total_is_scheduled_plus_not_due_witness :
  let ps := [WithDueDate (NewPayment "gas") (day_ 2023 11 4); rent;
             WithDueDate (NewPayment "tax") (day_ 2024 6 30)] in
  fst (totalPending ps 30 (always (day_ 2023 11 5)) 0%nat) = 1 + 1.
Proof.
  intros ps.
  exact (total_is_scheduled_plus_not_due ps 30 (day_ 2023 11 5) 0%nat
           ltac:(vm_compute; discriminate) ltac:(vm_compute; discriminate)).
Defined.

(** X13.  The day difference depends on the clock only through the day
    it shows on the calendar of Athens: two instants from 1996 on of the
    same day there, in whatever locations they are expressed, give every
    payment the same difference. *)
Theorem DiffFromNowInDays_same_day (p : Payment) (now1 now2 : time.Time)
    (H1 : since1996 now1) (H2 : since1996 now2)
    (H : time.date (time.In now1 GreekTimeZone) = time.date (time.In now2 GreekTimeZone)) :
  DiffFromNowInDays p now1 = DiffFromNowInDays p now2.
Proof.
  rewrite !DiffFromNowInDays_quot. now rewrite (ToDate_same_day now1 now2 H).
Qed.

Lemma DiffFromNowInDays_same_day_witness :
  let now1 := at_ 2023 11 3 0 7200 in
  let now2 := at_ 2023 11 3 21 0 in
  since1996 now1 /\ since1996 now2
  /\ DiffFromNowInDays (WithDueDate (NewPayment "gas") (day_ 2023 11 12)) now1
     = DiffFromNowInDays (WithDueDate (NewPayment "gas") (day_ 2023 11 12)) now2.
Proof.
  intros now1 now2.
  assert (H1 : since1996 now1) by (vm_compute; discriminate).
  assert (H2 : since1996 now2) by (vm_compute; discriminate).
  split; [exact H1|]. split; [exact H2|].
  apply (DiffFromNowInDays_same_day _ now1 now2 H1 H2). reflexivity.
Defined.

(** X14.  A payment whose due date was set from an instant is due today
    (day difference 0) at every clock reading of the same day on the
    calendar of Athens, and [FindPaymentsAt _ 0 _] returns it; both
    instants are from 1996 on. *)
Theorem due_today (p : Payment) (t now : time.Time)
    (Ht : since1996 t) (Hnow : since1996 now)
    (H : time.date (time.In t GreekTimeZone) = time.date (time.In now GreekTimeZone)) :
  DiffFromNowInDays (WithDueDate p t) now = 0
  /\ FindPaymentsAt [WithDueDate p t] 0 now = [WithDueDate p t].
Proof.
  assert (Hd : DiffFromNowInDays (WithDueDate p t) now = 0).
  { rewrite DiffFromNowInDays_quot. unfold WithDueDate. cbn [due].
    rewrite (ToDate_same_day t now H), Sub_self. reflexivity. }
  split; [exact Hd|].
  rewrite FindPaymentsAt_filter. cbn [filter]. unfold due_at.
  now rewrite IsDue_WithDueDate, Hd.
Qed.

Lemma due_today_witness :
  let t := at_ 2023 11 3 12 7200 in
  let now := at_ 2023 11 3 9 7200 in
  since1996 t /\ since1996 now
  /\ DiffFromNowInDays (WithDueDate (NewPayment "gas") t) now = 0.
Proof.
  intros t now.
  assert (Ht : since1996 t) by (vm_compute; discriminate).
  assert (Hnow : since1996 now) by (vm_compute; discriminate).
  split; [exact Ht|]. split; [exact Hnow|].
  apply (proj1 (due_today (NewPayment "gas") t now Ht Hnow eq_refl)).
Defined.

(** X15.  The day difference of every payment at every instant lies
    between [minDiff] = -106751 and 106751: the difference of the instants
    saturates before the conversion to [int] could overflow. *)
Theorem DiffFromNowInDays_bounds (p : Payment) (now : time.Time) :
  -106751 <= DiffFromNowInDays p now <= 106751.
Proof.
  split; [apply DiffFromNowInDays_lower | apply DiffFromNowInDays_upper].
Qed.

(** X16.  For a payment with a due date, the day difference misses the
    difference [k] of the two days on the calendar of Athens by at most
    one day and only toward zero: it is [k] or [k - 1] when [k] is positive,
    [k] or [k + 1] when [k] is negative, and 0 when the days are the
    same.  The due date is set from an instant from 1996 on, and so is the
    clock reading. *)
Theorem DiffFromNowInDays_within_a_day (p : Payment) (t now : time.Time)
    (Ht : since1996 t) (Hnow : since1996 now)
    (Hk : minDiff < localDay t - localDay now < - minDiff) :
  let k := localDay t - localDay now in
  let d := DiffFromNowInDays (WithDueDate p t) now in
  (0 < k -> k - 1 <= d <= k)
  /\ (k < 0 -> k <= d <= k + 1)
  /\ (k = 0 -> d = 0).
Proof.
  cbv zeta. destruct (DiffFromNowInDays_days p t now Hk) as (e & He & ->).
  set (k := localDay t - localDay now) in *.
  repeat split; intros; Z.to_euclidean_division_equations; lia.
Qed.

Lemma DiffFromNowInDays_within_a_day_witness :
  let t := day_ 2023 3 28 in
  let now := at_ 2023 3 25 9 7200 in
  since1996 t /\ since1996 now
  /\ localDay t - localDay now = 3
  /\ 3 - 1 <= DiffFromNowInDays (WithDueDate (NewPayment "gas") t) now <= 3.
Proof.
  intros t now.
  assert (Ht : since1996 t) by (vm_compute; discriminate).
  assert (Hnow : since1996 now) by (vm_compute; discriminate).
  assert (Hk : localDay t - localDay now = 3) by reflexivity.
  split; [exact Ht|]. split; [exact Hnow|]. split; [exact Hk|].
  assert (Hr : minDiff < localDay t - localDay now < - minDiff) by (rewrite Hk; split; reflexivity).
  pose proof (proj1 (DiffFromNowInDays_within_a_day (NewPayment "gas") t now Ht Hnow Hr)) as H.
  cbv zeta in H. rewrite Hk in H. apply H. reflexivity.
Defined.

(** ** Midnights, calendar days and written dates *)

Module Midnight.
Import time.

(** The day number of a date in closed form. *)
Lemma daysSinceEpoch_closed (y m d : Z) :
  daysSinceEpoch y m d =
  let Y := if m <=? 2 then y - 1 else y in
  let mp := if 2 <? m then m - 3 else m + 9 in
  365 * Y + Y / 4 - Y / 100 + Y / 400 + (153 * mp + 2) / 5 + d - 307.
Proof.
  unfold daysSinceEpoch, daysPerEra. cbv zeta.
  set (Y := if m <=? 2 then y - 1 else y).
  set (mp := if 2 <? m then m - 3 else m + 9).
  Z.div_mod_to_equations. lia.
Qed.

Lemma jan1_mono (a b : Z) : a <= b -> daysSinceEpoch a 1 1 <= daysSinceEpoch b 1 1.
Proof.
  intros H. rewrite !daysSinceEpoch_closed. cbn -[Z.div Z.mul Z.add Z.sub].
  Z.div_mod_to_equations. lia.
Qed.

Lemma jan1_step (y : Z) : daysSinceEpoch y 1 1 + 365 <= daysSinceEpoch (y + 1) 1 1.
Proof.
  rewrite !daysSinceEpoch_closed. cbn -[Z.div Z.mul Z.add Z.sub].
  Z.div_mod_to_equations. lia.
Qed.

Lemma date_in_year (y m d : Z) :
  1 <= m <= 12 -> 1 <= d <= 31 ->
  daysSinceEpoch y 1 1 <= daysSinceEpoch y m d < daysSinceEpoch (y + 1) 1 1.
Proof.
  intros Hm Hd. rewrite !daysSinceEpoch_closed. cbv zeta.
  change (1 <=? 2) with true. change (2 <? 1) with false. cbv iota.
  destruct (Z.leb_spec m 2); destruct (Z.ltb_spec 2 m); try lia;
    Z.div_mod_to_equations; lia.
Qed.

Lemma year_bounds (days : Z) :
  let '(y, _, _) := absDate days in
  daysSinceEpoch y 1 1 <= days < daysSinceEpoch (y + 1) 1 1.
Proof.
  pose proof (Calendar.absDate_inv days) as H.
  destruct (absDate days) as [[y m] d]. destruct H as (<- & Hm & Hd).
  now apply date_in_year.
Qed.

Lemma lastSunday_march (y : Z) :
  daysSinceEpoch y 1 1 + 83 <= lastSunday y 3 <= daysSinceEpoch y 1 1 + 90.
Proof.
  unfold lastSunday, absWeekday. cbn [daysIn Z.eqb Pos.eqb orb].
  rewrite !daysSinceEpoch_closed. cbn -[Z.div Z.mul Z.add Z.sub Z.modulo].
  Z.div_mod_to_equations. lia.
Qed.

Lemma lastSunday_october (y : Z) :
  daysSinceEpoch y 1 1 + 297 <= lastSunday y 10 <= daysSinceEpoch y 1 1 + 304.
Proof.
  unfold lastSunday, absWeekday. cbn [daysIn Z.eqb Pos.eqb orb].
  rewrite !daysSinceEpoch_closed. cbn -[Z.div Z.mul Z.add Z.sub Z.modulo].
  Z.div_mod_to_equations. lia.
Qed.

(** At the midnight (as if UTC) of a day, the offset that [lookup] finds
    is in force at the instant that lies the offset before, and is what
    [lookup] finds there. *)
Lemma lookup_midnight (days : Z) :
  let unix := days * secondsPerDay in
  let '(offset, start, end_) := lookup EuropeAthens unix in
  (offset = 7200 \/ offset = 10800)
  /\ start <= unix - offset < end_
  /\ fst (fst (lookup EuropeAthens (unix - offset))) = offset.
Proof.
  cbv zeta. unfold lookup, secondsPerDay.
  rewrite Z.div_mul by lia.
  pose proof (year_bounds days) as Hy.
  destruct (absDate days) as [[y m] d].
  pose proof (lastSunday_march y) as M. pose proof (lastSunday_october y) as O.
  pose proof (lastSunday_october (y - 1)) as O'.
  pose proof (lastSunday_march (y + 1)) as M'.
  pose proof (jan1_step y) as S1. pose proof (jan1_step (y - 1)) as S0.
  replace (y - 1 + 1) with y in S0 by lia.
  assert (Hprev : forall off, 0 < off < 86400 -> (days * 86400 - off) / 86400 = days - 1).
  { intros off Hoff. symmetry. apply (Z.div_unique _ _ _ (86400 - off)); lia. }
  pose proof (year_bounds (days - 1)) as Hy1.
  destruct (absDate (days - 1)) as [[y1 m1] d1] eqn:E1.
  assert (Hy1' : y1 = y \/ y1 = y - 1).
  { destruct (Z.lt_trichotomy y1 y) as [Hlt|[->|Hgt]]; [|left; reflexivity|].
    - destruct (Z.eq_dec y1 (y - 1)) as [->|Hne]; [right; reflexivity|].
      exfalso. pose proof (jan1_mono (y1 + 1) (y - 1) ltac:(lia)). lia.
    - exfalso. pose proof (jan1_mono (y + 1) y1 ltac:(lia)). lia. }
  assert (Hy1n : y1 = y - 1 -> days - 1 < daysSinceEpoch y 1 1).
  { intros ->. now replace (y - 1 + 1) with y in Hy1 by lia. }
  unfold dstStart, dstEnd, secondsPerDay in *.
  destruct (Z.ltb_spec (days * 86400) (lastSunday y 3 * 86400 + 3600)) as [H1|H1].
  - split; [left; reflexivity|]. split; [lia|].
    rewrite Hprev by lia. rewrite E1.
    destruct Hy1' as [->| ->].
    + replace (days * 86400 - 7200 <? lastSunday y 3 * 86400 + 3600) with true
        by (symmetry; apply Z.ltb_lt; lia).
      reflexivity.
    + pose proof (lastSunday_march (y - 1)) as M0.
      replace (days * 86400 - 7200 <? lastSunday (y - 1) 3 * 86400 + 3600) with false
        by (symmetry; apply Z.ltb_ge; lia).
      replace (days * 86400 - 7200 <? lastSunday (y - 1) 10 * 86400 + 3600) with false
        by (symmetry; apply Z.ltb_ge; lia).
      reflexivity.
  - destruct (Z.ltb_spec (days * 86400) (lastSunday y 10 * 86400 + 3600)) as [H2|H2].
    + split; [right; reflexivity|]. split; [lia|].
      rewrite Hprev by lia. rewrite E1.
      destruct Hy1' as [->|Hy1']; [|exfalso; specialize (Hy1n Hy1'); lia].
      replace (days * 86400 - 10800 <? lastSunday y 3 * 86400 + 3600) with false
        by (symmetry; apply Z.ltb_ge; lia).
      replace (days * 86400 - 10800 <? lastSunday y 10 * 86400 + 3600) with true
        by (symmetry; apply Z.ltb_lt; lia).
      reflexivity.
    + split; [left; reflexivity|]. split; [lia|].
      rewrite Hprev by lia. rewrite E1.
      destruct Hy1' as [->|Hy1']; [|exfalso; specialize (Hy1n Hy1'); lia].
      replace (days * 86400 - 7200 <? lastSunday y 3 * 86400 + 3600) with false
        by (symmetry; apply Z.ltb_ge; lia).
      replace (days * 86400 - 7200 <? lastSunday y 10 * 86400 + 3600) with false
        by (symmetry; apply Z.ltb_ge; lia).
      reflexivity.
Qed.


(** [time.Date] at the midnight of a civil date that [absDate] produced:
    the first offset found is the right one. *)
Lemma Date_midnight_exact (days : Z) :
  let '(y, m, d) := absDate days in
  exists offset,
    (offset = 7200 \/ offset = 10800)
    /\ Date y m d 0 0 0 0 EuropeAthens
       = mkTime (days * secondsPerDay - offset) 0 EuropeAthens
    /\ fst (fst (lookup EuropeAthens (days * secondsPerDay - offset))) = offset.
Proof.
  pose proof (Calendar.absDate_inv days) as H.
  destruct (absDate days) as [[y m] d]. destruct H as (Hd & Hm & _).
  unfold Date. cbv zeta.
  replace ((m - 1) / 12) with 0 by (symmetry; apply Z.div_small; lia).
  replace ((m - 1) mod 12 + 1) with m by (rewrite Z.mod_small; lia).
  change ((0 + (0 + (0 + 0 / 1000000000) / 60) / 60) / 24) with 0.
  change ((0 + (0 + (0 + 0 / 1000000000) / 60) / 60) mod 24) with 0.
  change ((0 + (0 + 0 / 1000000000) / 60) mod 60) with 0.
  change ((0 + 0 / 1000000000) mod 60) with 0.
  replace (y + 0) with y by lia. replace (d + 0) with d by lia. rewrite Hd.
  replace (days * secondsPerDay + 0 * 3600 + 0 * 60 + 0) with (days * secondsPerDay) by lia.
  pose proof (lookup_midnight days) as L. cbv zeta in L.
  destruct (lookup EuropeAthens (days * secondsPerDay)) as [[offset start] end_].
  destruct L as (Ho & Hr & Hc).
  exists offset. split; [exact Ho|]. split; [|exact Hc].
  replace (offset =? 0) with false by (symmetry; apply Z.eqb_neq; lia).
  replace ((days * secondsPerDay - offset <? start)
           || (end_ <=? days * secondsPerDay - offset)) with false; [reflexivity|].
  symmetry. apply orb_false_iff. split; [apply Z.ltb_ge|apply Z.leb_gt]; lia.
Qed.

Lemma ToDate_exact (t : Time) :
  exists offset,
    (offset = 7200 \/ offset = 10800)
    /\ ToDate (In t GreekTimeZone)
       = mkTime (localDay t * secondsPerDay - offset) 0 EuropeAthens
    /\ fst (fst (lookup EuropeAthens (localDay t * secondsPerDay - offset))) = offset.
Proof.
  pose proof (Date_midnight_exact (localDay t)) as H.
  unfold ToDate, Year, Month, Day, date. fold (localDay t).
  change (abs (In t GreekTimeZone) / secondsPerDay) with (localDay t).
  destruct (absDate (localDay t)) as [[y m] d]. exact H.
Qed.

(** [ToDate] yields the midnight of the instant's day on the calendar of
    Athens. *)
Lemma ToDate_midnight (t : Time) :
  abs (ToDate (In t GreekTimeZone)) = localDay t * secondsPerDay
  /\ nsec (ToDate (In t GreekTimeZone)) = 0
  /\ loc (ToDate (In t GreekTimeZone)) = EuropeAthens.
Proof.
  destruct (ToDate_exact t) as (o & Ho & -> & Hc).
  unfold abs. cbn [sec nsec loc].
  destruct (lookup EuropeAthens (localDay t * secondsPerDay - o)) as [[o' ?] ?].
  cbn in Hc. subst o'. repeat split. lia.
Qed.

Lemma date_localDay (t : Time) : date (In t GreekTimeZone) = absDate (localDay t).
Proof. reflexivity. Qed.

Lemma date_ToDate (t : Time) :
  date (ToDate (In t GreekTimeZone)) = date (In t GreekTimeZone).
Proof.
  destruct (ToDate_midnight t) as (Ha & _ & _).
  unfold date at 1. rewrite Ha, Z.div_mul by (unfold secondsPerDay; lia).
  reflexivity.
Qed.

Lemma In_ToDate (t : Time) :
  In (ToDate (In t GreekTimeZone)) GreekTimeZone = ToDate (In t GreekTimeZone).
Proof.
  destruct (ToDate_midnight t) as (_ & _ & Hl).
  destruct (ToDate (In t GreekTimeZone)) as [s n l]. cbn in Hl. subst l. reflexivity.
Qed.

Lemma ToDate_ToDate (t : Time) :
  ToDate (In (ToDate (In t GreekTimeZone)) GreekTimeZone) = ToDate (In t GreekTimeZone).
Proof.
  apply ToDate_same_day. rewrite In_ToDate. apply date_ToDate.
Qed.

(** The inverse direction of the calendar: the civil date of the day
    number of a date of the calendar is that date. *)
Lemma yearOfEra_inverse (yoe doy : Z) :
  0 <= yoe <= 399 -> 0 <= doy <= 365 ->
  (doy = 365 -> (yoe + 1) mod 4 = 0 /\ ((yoe + 1) mod 100 <> 0 \/ (yoe + 1) mod 400 = 0)) ->
  let doe := 365 * yoe + yoe / 4 - yoe / 100 + doy in
  0 <= doe < 146097
  /\ (doe - doe / 1460 + doe / 36524 - doe / 146096) / 365 = yoe.
Proof.
  intros Hy Hd Hl. cbv zeta.
  Z.div_mod_to_equations. lia.
Qed.

Lemma monthOfYear_inverse (mp d : Z) :
  0 <= mp <= 11 -> 1 <= d ->
  d <= (153 * (mp + 1) + 2) / 5 - (153 * mp + 2) / 5 ->
  (5 * ((153 * mp + 2) / 5 + d - 1) + 2) / 153 = mp.
Proof.
  intros Hm Hd Hd'. Z.div_mod_to_equations. lia.
Qed.

Lemma isLeap_true (y : Z) :
  isLeap y = true <-> y mod 4 = 0 /\ (y mod 100 <> 0 \/ y mod 400 = 0).
Proof.
  unfold isLeap. rewrite andb_true_iff, orb_true_iff, negb_true_iff, !Z.eqb_eq, Z.eqb_neq.
  reflexivity.
Qed.

Lemma absDate_daysSinceEpoch (y m d : Z) :
  1 <= m <= 12 -> 1 <= d <= daysIn m y ->
  absDate (daysSinceEpoch y m d) = (y, m, d).
Proof.
  intros Hm Hd.
  set (Y := if m <=? 2 then y - 1 else y).
  set (mp := if 2 <? m then m - 3 else m + 9).
  assert (Hmp : 0 <= mp <= 11 /\ (if mp <? 10 then mp + 3 else mp - 9) = m
                /\ (m <=? 2) = negb (mp <? 10)).
  { subst mp. destruct (Z.ltb_spec 2 m).
    - destruct (Z.ltb_spec (m - 3) 10); destruct (Z.leb_spec m 2); cbn; lia.
    - destruct (Z.ltb_spec (m + 9) 10); destruct (Z.leb_spec m 2); cbn; lia. }
  destruct Hmp as (Hmp & Hm' & Hle).
  assert (Hlen : d <= (153 * (mp + 1) + 2) / 5 - (153 * mp + 2) / 5
                 /\ (mp = 11 -> d <= 29 /\ (d = 29 -> isLeap y = true))).
  { unfold daysIn in Hd. subst mp.
    assert (Hc : m = 1 \/ m = 2 \/ m = 3 \/ m = 4 \/ m = 5 \/ m = 6 \/ m = 7 \/ m = 8
                 \/ m = 9 \/ m = 10 \/ m = 11 \/ m = 12) by lia.
    destruct Hc as [->|[->|[->|[->|[->|[->|[->|[->|[->|[->|[->| ->]]]]]]]]]]];
      cbn in Hd |- *; try lia.
    destruct (isLeap y); split; try lia; split; try lia; intros; try reflexivity; lia. }
  destruct Hlen as (Hlen & Hfeb).
  set (era := Y / 400). set (yoe := Y - era * 400).
  assert (Hyoe : 0 <= yoe <= 399) by (subst yoe era; Z.div_mod_to_equations; lia).
  set (doy := (153 * mp + 2) / 5 + d - 1).
  assert (Hdoy : 0 <= doy <= 365).
  { subst doy. destruct (Z.eq_dec mp 11) as [E|E].
    - rewrite E in *. destruct (Hfeb eq_refl). change ((153 * 11 + 2) / 5) with 337. lia.
    - Z.div_mod_to_equations. lia. }
  assert (Hleap : doy = 365 ->
                  (yoe + 1) mod 4 = 0 /\ ((yoe + 1) mod 100 <> 0 \/ (yoe + 1) mod 400 = 0)).
  { intros E. assert (mp = 11) as E11 by (subst doy; Z.div_mod_to_equations; lia).
    destruct (Hfeb E11) as [_ Hl]. subst doy. rewrite E11 in E.
    change ((153 * 11 + 2) / 5) with 337 in E.
    assert (Hly : isLeap y = true) by (apply Hl; lia).
    apply isLeap_true in Hly.
    assert (Hy : y = yoe + 1 + era * 400).
    { subst yoe Y. rewrite E11 in Hle. cbn in Hle. rewrite Hle. lia. }
    rewrite Hy in Hly. clear - Hly. Z.div_mod_to_equations. lia. }
  pose proof (yearOfEra_inverse yoe doy Hyoe Hdoy Hleap) as Hinv. cbv zeta in Hinv.
  set (doe := 365 * yoe + yoe / 4 - yoe / 100 + doy) in *.
  destruct Hinv as (Hdoe & Hyoe').
  assert (HN : daysSinceEpoch y m d = era * daysPerEra + doe - 306).
  { unfold daysSinceEpoch. cbv zeta. fold Y. fold mp. fold era. fold yoe. fold doy.
    subst doe. lia. }
  rewrite HN. unfold absDate. cbv zeta.
  replace (era * daysPerEra + doe - 306 + 306) with (doe + era * daysPerEra) by lia.
  unfold daysPerEra. rewrite Z.div_add by lia. rewrite (Z.div_small doe) by lia.
  replace (doe + era * 146097 - (0 + era) * 146097) with doe by lia.
  unfold civil_of_doe. cbv zeta. rewrite Hyoe'.
  replace (doe - (365 * yoe + yoe / 4 - yoe / 100)) with doy by (subst doe; lia).
  assert (Hmp' : (5 * doy + 2) / 153 = mp).
  { subst doy. apply monthOfYear_inverse; lia. }
  rewrite Hmp', Hm', Hle.
  replace (doy - (153 * mp + 2) / 5 + 1) with d by (subst doy; lia).
  f_equal. f_equal. subst yoe Y. rewrite Hle. destruct (mp <? 10); cbn; lia.
Qed.

Lemma ParseDateOnly_inl (s : string) (t : Time) :
  ParseDateOnly s = inl t ->
  exists y m d,
    writtenDate s = Some (y, m, d)
    /\ 1 <= m <= 12 /\ 1 <= d <= daysIn m y
    /\ t = Date y m d 0 0 0 0 UTC.
Proof.
  unfold ParseDateOnly, getnum2, skipHyphen.
  destruct s as [|y1 [|y2 [|y3 [|y4 [|h1 [|m1 [|m2 [|h2 [|d1 [|d2 s]]]]]]]]]];
    repeat match goal with
      | |- context [digit ?c] => destruct (digit c) eqn:?
      | |- context [Ascii.eqb ?a ?b] => destruct (Ascii.eqb a b) eqn:?
      end; cbn -[Date daysIn Z.mul Z.add Z.leb Z.ltb]; try discriminate;
    try (repeat match goal with
           | |- context [if ?c then _ else _] => destruct c
           end; discriminate).
  destruct s;
    [|repeat match goal with
        | |- context [if ?c then _ else _] => destruct c
        end; discriminate].
  match goal with |- context [if (?m <=? 0) || _ then _ else _] =>
    destruct (Z.leb_spec m 0); cbn [orb]; [discriminate|];
    destruct (Z.ltb_spec 12 m); [discriminate|] end.
  match goal with |- context [if (?d <? 1) || (?n <? _) then _ else _] =>
    destruct (Z.ltb_spec d 1); cbn [orb]; [discriminate|];
    destruct (Z.ltb_spec n d); [discriminate|] end.
  intros [= <-]. unfold writtenDate.
  repeat match goal with H : digit _ = Some _ |- _ => rewrite H; clear H end.
  eexists _, _, _. repeat split; try reflexivity; lia.
Qed.

(** Midnight UTC of a date of the calendar, and its day in Athens. *)
Lemma Date_UTC (y m d : Z) :
  1 <= m <= 12 ->
  Date y m d 0 0 0 0 UTC = mkTime (daysSinceEpoch y m d * secondsPerDay) 0 UTC.
Proof.
  intros Hm. unfold Date. cbv zeta.
  replace ((m - 1) / 12) with 0 by (symmetry; apply Z.div_small; lia).
  replace ((m - 1) mod 12 + 1) with m by (rewrite Z.mod_small; lia).
  change ((0 + (0 + (0 + 0 / 1000000000) / 60) / 60) / 24) with 0.
  change ((0 + (0 + (0 + 0 / 1000000000) / 60) / 60) mod 24) with 0.
  change ((0 + (0 + 0 / 1000000000) / 60) mod 60) with 0.
  change ((0 + 0 / 1000000000) mod 60) with 0.
  replace (y + 0) with y by lia. replace (d + 0) with d by lia.
  cbn [lookup Z.eqb]. f_equal. lia.
Qed.

Lemma localDay_UTC_midnight (days : Z) :
  localDay (mkTime (days * secondsPerDay) 0 UTC) = days.
Proof.
  unfold localDay, abs, In, GreekTimeZone. cbn [sec nsec loc].
  pose proof (TimeFacts.lookup_Athens_offset (days * secondsPerDay)) as Ho.
  destruct (lookup EuropeAthens (days * secondsPerDay)) as [[o ?] ?]. cbn in Ho.
  unfold secondsPerDay. symmetry. apply (Z.div_unique _ _ _ o); lia.
Qed.

End Midnight.

Import Midnight.

(** X17.  [ToDate] applied, in the Greek zone, to an instant from 1996 on
    yields the midnight, on the clock of Athens, of the instant's day on the
    calendar of Athens: the result shows the same date, its time of day is
    00:00:00 sharp, and normalising it again changes nothing. *)
Theorem ToDate_idempotent (t : time.Time) (Ht : since1996 t) :
  let u := ToDate (time.In t GreekTimeZone) in
  ToDate (time.In u GreekTimeZone) = u
  /\ time.date u = time.date (time.In t GreekTimeZone)
  /\ time.abs u mod time.secondsPerDay = 0
  /\ time.nsec u = 0.
Proof.
  cbv zeta. destruct (ToDate_midnight t) as (Ha & Hn & _).
  split; [apply ToDate_ToDate|]. split; [apply date_ToDate|].
  split; [|exact Hn]. rewrite Ha. apply Z.mod_mul. unfold time.secondsPerDay. lia.
Qed.

Lemma ToDate_idempotent_witness :
  let t := at_ 2023 3 26 12 0 in
  let u := ToDate (time.In t GreekTimeZone) in
  since1996 t
  /\ ToDate (time.In u GreekTimeZone) = u
  /\ time.date u = (2023, 3, 26).
Proof.
  intros t u.
  assert (Ht : since1996 t) by (vm_compute; discriminate).
  destruct (ToDate_idempotent t Ht) as (Hi & Hd & _).
  split; [exact Ht|]. split; [exact Hi|]. exact Hd.
Defined.

(** X18.  [WithDueDate], given an instant from 1996 on, makes the payment
    date-scheduled, keeps its description, and stores a due date that shows
    the day of the given instant on the calendar of Athens; attaching the
    stored due date again changes nothing, and at the stored due date as
    the clock reading the payment is due today. *)
Theorem WithDueDate_keeps_day (p : Payment) (t : time.Time) (Ht : since1996 t) :
  let q := WithDueDate p t in
  IsDue q = true
  /\ description q = description p
  /\ time.date (due q) = time.date (time.In t GreekTimeZone)
  /\ WithDueDate p (due q) = q
  /\ DiffFromNowInDays q (due q) = 0.
Proof.
  cbv zeta. split; [apply IsDue_WithDueDate|]. split; [reflexivity|].
  unfold WithDueDate. cbn [due description].
  split; [apply date_ToDate|]. split; [now rewrite ToDate_ToDate|].
  rewrite DiffFromNowInDays_quot. cbn [due].
  rewrite ToDate_ToDate, ClassifierMore.Sub_self. reflexivity.
Qed.

Lemma WithDueDate_keeps_day_witness :
  let t := at_ 2023 10 29 23 0 in
  let q := WithDueDate (NewPayment "gas") t in
  since1996 t
  /\ IsDue q = true
  /\ time.date (due q) = (2023, 10, 30)
  /\ DiffFromNowInDays q (due q) = 0.
Proof.
  intros t q.
  assert (Ht : since1996 t) by (vm_compute; discriminate).
  destruct (WithDueDate_keeps_day (NewPayment "gas") t Ht) as (Hi & _ & Hd & _ & H0).
  split; [exact Ht|]. split; [exact Hi|]. split; [exact Hd|exact H0].
Defined.

(** X19.  When a due-date text parses to a date from 1996 on, the payment
    built from it is due on the date that the text spells: the due date
    shows, on the calendar of Athens, the year, month and day written, not
    shifted by the zone. *)
Theorem due_date_is_the_date_written (p : Payment) (s : string) (t : time.Time)
    (H : time.ParseDateOnly s = inl t) (Ht : since1996 t) :
  exists y m d,
    writtenDate s = Some (y, m, d)
    /\ time.date (due (WithDueDate p t)) = (y, m, d).
Proof.
  destruct (ParseDateOnly_inl s t H) as (y & m & d & Hw & Hm & Hd & ->).
  exists y, m, d. split; [exact Hw|].
  unfold WithDueDate. cbn [due]. rewrite date_ToDate, date_localDay.
  rewrite Date_UTC by exact Hm. rewrite localDay_UTC_midnight.
  now apply absDate_daysSinceEpoch.
Qed.

Lemma due_date_is_the_date_written_witness :
  since1996 (day_ 2024 2 29)
  /\ time.date (due (WithDueDate (NewPayment "gas") (day_ 2024 2 29))) = (2024, 2, 29).
Proof.
  assert (Ht : since1996 (day_ 2024 2 29)) by (vm_compute; discriminate).
  split; [exact Ht|].
  destruct (due_date_is_the_date_written (NewPayment "gas") "2024-02-29" (day_ 2024 2 29)
              eq_refl Ht) as (y & m & d & Hw & Hd).
  injection Hw as <- <- <-. exact Hd.
Defined.

(** ** Further properties of the report and the run *)

Module RunMore.

Lemma totalPending_all_not_due (ps : list Payment) (w : Z) (clk : Clock) (n : nat) :
  Forall (fun p => IsDue p = false) ps ->
  (forall k, time.unixToInternal <= time.sec (clk k)) -> minDiff <= w ->
  fst (totalPending ps w clk n) = len ps.
Proof.
  intros Hall Hclk Hw. rewrite totalPending_eq. cbn [fst].
  rewrite filter_all.
  - unfold turns, len. rewrite length_combine, length_seq. lia.
  - apply Forall_forall. intros [k p] Hin. unfold pending_at. cbn [fst snd].
    assert (Hp : In p ps).
    { rewrite <- (turns_snd ps n). apply in_map_iff. exists (k, p). auto. }
    rewrite Forall_forall in Hall. apply Hall in Hp. apply IsDue_false in Hp.
    destruct p as [d t]. cbn in Hp. subst t.
    change (mkPayment d time.zero) with (NewPayment d).
    rewrite DiffFromNowInDays_NewPayment by apply Hclk.
    apply Z.leb_le. exact Hw.
Qed.

(** With every cell a text, the row loop never panics: the length checks
    come before every access. *)
Lemma index_text (row : Row) (i : Z) :
  forallb isText row = true -> 0 <= i < len row ->
  exists s, index row i = Ok (VString s).
Proof.
  intros Ht Hi. destruct (index_in_range row i Hi) as [v Hv].
  assert (Hin : In v row).
  { unfold index in Hv. destruct (i <? 0); [discriminate|].
    destruct (nth_error row (Z.to_nat i)) as [v'|] eqn:E; [|discriminate].
    injection Hv as <-. eapply nth_error_In. exact E. }
  rewrite forallb_forall in Ht. specialize (Ht v Hin).
  destruct v as [s| |]; try discriminate. exists s. exact Hv.
Qed.

Lemma readRow_text (di du pi idx : Z) (row : Row) (acc : list Payment) (dd : string) :
  0 <= di -> -1 <= du -> 0 <= pi -> forallb isText row = true ->
  readRow di du pi idx row acc dd <> Panics.
Proof.
  intros Hdi Hdu Hpi Ht. unfold readRow.
  destruct (Z.ltb_spec (len row - 1) di); [discriminate|].
  destruct (Z.ltb_spec (len row - 1) du); [discriminate|].
  destruct (Z.ltb_spec (len row - 1) pi); [discriminate|].
  destruct (index_text row di Ht ltac:(lia)) as [d ->].
  destruct (index_text row pi Ht ltac:(lia)) as [p ->]. cbn [assertString].
  destruct (Z.leb_spec 0 du).
  - destruct (index_text row du Ht ltac:(lia)) as [s ->]. cbn [assertString].
    destruct (negb (p =? "")%string); [discriminate|].
    destruct (du =? -1); [discriminate|].
    destruct (time.ParseDateOnly s); discriminate.
  - destruct (negb (p =? "")%string); [discriminate|].
    destruct (du =? -1); [discriminate|].
    destruct (time.ParseDateOnly dd); discriminate.
Qed.

Lemma readRows_text (di du pi : Z) :
  0 <= di -> -1 <= du -> 0 <= pi ->
  forall rows idx acc dd,
    Forall (fun row => forallb isText row = true) rows ->
    readRows di du pi rows idx acc dd <> Panic.
Proof.
  intros Hdi Hdu Hpi rows. induction rows as [|row rows IH]; intros idx acc dd Ht.
  - discriminate.
  - inversion Ht as [|r rs Hrow Hrows]; subst. cbn [readRows].
    pose proof (readRow_text di du pi idx row acc dd Hdi Hdu Hpi Hrow) as Hno.
    destruct (readRow di du pi idx row acc dd); [apply IH; exact Hrows|discriminate|].
    contradiction.
Qed.

Lemma readPayments_text (rows : list Row) :
  rows <> [] -> Forall (fun row => forallb isText row = true) rows ->
  readPayments rows <> Panic.
Proof.
  intros Hne Ht. destruct rows as [|header data]; [contradiction|].
  inversion Ht as [|r rs Hh Hd]; subst.
  unfold readPayments. rewrite scanHeader_lastIndex, Hh.
  pose proof (lastIndex_lower "Description" header).
  pose proof (lastIndex_lower "Due Date" header).
  pose proof (lastIndex_lower "Payment Date" header).
  destruct (Z.eqb_spec (lastIndex "Description" header 0 (-1)) (-1)); [discriminate|].
  destruct (Z.eqb_spec (lastIndex "Payment Date" header 0 (-1)) (-1)); [discriminate|].
  apply readRows_text; try lia. exact Hd.
Qed.

Lemma readSheet_text (sheet : Sheet) :
  Forall (fun row => forallb isText row = true) (Values sheet) ->
  readSheet sheet <> Panic.
Proof.
  intros Ht. unfold readSheet, getSheet.
  destruct (Z.leb_spec (len (Values sheet)) 1); [discriminate|].
  pose proof (readPayments_text (Values sheet)) as Hno.
  destruct (readPayments (Values sheet)); try discriminate.
  exfalso. apply Hno; [|exact Ht|reflexivity].
  intros E. rewrite E in *. unfold len in *. cbn in *. lia.
Qed.

Lemma readSheets_text (sheets : list Sheet) :
  Forall (fun sheet => Forall (fun row => forallb isText row = true) (Values sheet)) sheets ->
  forall acc, readSheets sheets acc <> Panic.
Proof.
  induction 1 as [|sheet sheets Hs _ IH]; intros acc; [discriminate|].
  rewrite readSheets_cons. pose proof (readSheet_text sheet Hs) as Hno.
  destruct (readSheet sheet); [apply IH|discriminate|contradiction].
Qed.

End RunMore.

Import RunMore.

(** X20.  When no payment has a due date and the clock shows instants
    since 1970, the report is three lines: the two placeholder lines and
    the total line with the number of all payments.  Payments without due
    date appear in the total and nowhere else. *)
Theorem report_of_payments_without_due_date (ps : list Payment) (clk : Clock) (n : nat)
    (Hall : Forall (fun p => IsDue p = false) ps)
    (Hclk : forall k, time.unixToInternal <= time.sec (clk k)) :
  fst (report ps clk n)
  = ("😎 Nothing for today
😎 Nothing coming up (next 2 days)
💰 Total " ++ itoa (len ps) ++ " payments pending during the next 30 days")%string.
Proof.
  rewrite report_eq.
  rewrite FindPaymentsUntil_filter, FindPaymentsAt_filter.
  rewrite !filter_nil;
    try (eapply Forall_impl; try exact Hall; intros p Hp;
         unfold due_at, due_until; now rewrite Hp).
  rewrite comingUp_nil by exact Hall.
  rewrite totalPending_all_not_due; try assumption; [reflexivity|].
  vm_compute. discriminate.
Qed.

Lemma report_of_payments_without_due_date_witness :
  fst (report [NewPayment "rent"; NewPayment "phone"] (always (day_ 2023 11 5)) 0%nat)
  = "😎 Nothing for today
😎 Nothing coming up (next 2 days)
💰 Total 2 payments pending during the next 30 days".
Proof.
  apply (report_of_payments_without_due_date [NewPayment "rent"; NewPayment "phone"]
           (always (day_ 2023 11 5)) 0%nat).
  - repeat constructor.
  - intros k. vm_compute. discriminate.
Defined.

(** X21.  Making the report reads the clock twice for the delayed and
    today summaries, once for every date-scheduled payment in the coming-up
    summary and once for every payment in the total: each comparison of
    these two summaries is made against a clock reading of its own. *)
Theorem report_clock_reads (ps : list Payment) (clk : Clock) (n : nat) :
  snd (report ps clk n)
  = (n + 2 + List.length (filter IsDue ps) + List.length ps)%nat.
Proof.
  unfold report, bind.
  rewrite SummarizeDelayedPayments_eq, SummarizePaymentsForToday_eq,
    SummarizePaymentsComingUp_eq, SummarizeTotalPayments_eq.
  unfold ret. cbn [snd]. rewrite totalPending_eq. cbn [snd].
  unfold comingUp. rewrite comingUp_loop_reads. lia.
Qed.

(** X22.  [run] returns without an error exactly when the Sheets client is
    made, every sheet is fetched with a header and at least one row more
    and is read, the request to the notification server is accepted, and
    the server answers the request with status 200.  The run has then
    fetched every sheet in the order of the configuration, printed the
    report if asked to, and sent one request: a POST to the topic's URL
    with the title ["Payment Report"], an empty tag and the report as the
    body, where the report is that of the payments of all sheets, one sheet
    after the other, with the clock read from its start. *)
Theorem run_reports_all_sheets (w : Service.World) (config : Service.Config) (print : bool)
    (clk : Clock) (events : list Service.event) :
  Service.run w config print clk = (events, Service.Returned None)
  <-> exists pss,
        let r := fst (report (List.concat pss) clk 0%nat) in
        let req := Service.notification (Service.NotificationTopic config) r in
        (exists u, Service.NewService w = Service.Answer u)
        /\ Forall2 Service.reads (Service.Sheets config) pss
        /\ (exists u, Service.NewRequest w "POST" (Service.URL req) = Service.Answer u)
        /\ Service.Do w req = Service.Answer 200
        /\ events = map Service.fetchOf (Service.Sheets config)
                    ++ (if print then [Service.Print r] else []) ++ [Service.Send req].
Proof.
  split.
  - unfold Service.run. destruct (Service.NewService w) as [u|err] eqn:Hu; [|discriminate].
    destruct (Service.readSheets (Service.Sheets config) []) as [fetches [ps|o]] eqn:E.
    + pose proof (readSheets_inl _ _ _ _ E) as (pss & HF & Hps). cbn [app] in Hps. subst ps.
      rewrite (readSheets_all _ _ HF) in E. injection E as <-.
      cbv zeta. intros H. exists pss. cbv zeta.
      destruct (Service.NewRequest w "POST"
                  ("https://ntfy.sh/" ++ Service.NotificationTopic config)%string)
        as [u'|err] eqn:Hn.
      * rewrite (SendNotification_request _ _ _ u' Hn) in H.
        destruct (Service.Do w _) as [status|err] eqn:Hd; [|discriminate].
        destruct (Z.eqb_spec status 200) as [->|]; [|discriminate].
        injection H as <-. split; [now exists u|]. split; [exact HF|].
        split; [exists u'; exact Hn|]. split; reflexivity.
      * unfold Service.SendNotification in H. rewrite Hn in H. discriminate.
    + intros [= <- ->]. exfalso. now apply (readSheets_inr _ _ _ _ E).
  - intros (pss & Hex). cbv zeta in Hex.
    destruct Hex as ((u & Hu) & HF & (u' & Hn) & Hd & ->).
    unfold Service.run. rewrite Hu, (readSheets_all _ _ HF). cbn [app].
    cbn [Service.URL Service.notification] in Hn.
    rewrite (SendNotification_request _ _ _ u' Hn), Hd. reflexivity.
Qed.

Lemma run_reports_all_sheets_witness :
  let w := Service.mkWorld (Service.Answer tt) (fun _ _ => Service.Answer tt)
                           (fun _ => Service.Answer 200) in
  let scheduled := Service.mkSheet "id1" "scheduled"
                     (Service.Answer [scheduledHeader; [S_ "gas"; S_ "2023-11-05"; S_ ""]]) in
  let recurring := Service.mkSheet "id2" "recurring"
                     (Service.Answer [[S_ "Description"; S_ "Payment Date"];
                                      [S_ "rent"; S_ ""]]) in
  let r := "💸 Today: gas
😎 Nothing coming up (next 2 days)
💰 Total 2 payments pending during the next 30 days" in
  Service.run w (Service.mkConfig "bills" [scheduled; recurring]) true
              (always (day_ 2023 11 5))
  = ([Service.Fetch "id1" "scheduled"; Service.Fetch "id2" "recurring"; Service.Print r;
      Service.Send (Service.mkRequest "POST" "https://ntfy.sh/bills"
                      [("Title", "Payment Report"); ("Tags", EmptyString)] r)],
     Service.Returned None).
Proof.
  intros w scheduled recurring r.
  apply (proj2 (run_reports_all_sheets w (Service.mkConfig "bills" [scheduled; recurring])
                  true (always (day_ 2023 11 5)) _)).
  exists [[WithDueDate (NewPayment "gas") (day_ 2023 11 5)]; [NewPayment "rent"]].
  cbv zeta. split; [exists tt; reflexivity|]. split.
  - constructor; [|constructor; [|constructor]];
      (eexists; split; [reflexivity|]; split; reflexivity).
  - split; [exists tt; reflexivity|]. split; [reflexivity|]. vm_compute. reflexivity.
Defined.

(** X23.  When every cell of every fetched sheet is a text, [run] does not
    panic: it returns a report or an error.  The check for a data row and
    the length checks of the row loop come before every access by
    index. *)
Theorem run_on_text_never_panics (sheets : list Sheet) (clk : Clock)
    (Ht : Forall (fun sheet => Forall (fun row => forallb isText row = true) (Values sheet))
            sheets) :
  run sheets clk <> Panic.
Proof.
  unfold run. pose proof (readSheets_text sheets Ht []) as H.
  destruct (readSheets sheets []); [discriminate|discriminate|contradiction].
Qed.

Lemma run_on_text_never_panics_witness :
  run [mkSheet "scheduled" [scheduledHeader; [S_ "gas"]]; mkSheet "empty" []]
      (always (day_ 2023 11 5)) <> Panic.
Proof.
  apply run_on_text_never_panics. repeat constructor.
Defined.
